(** * Image row compositor: a shallow embedding of [code.py]

    The development follows [to_letter] and [process_and_combine_images].

    - Python integers are [Z].  Python floats are IEEE binary64 values, taken
      from the executable specification of the Standard Library
      ([SpecFloat], precision 53, maximal exponent 1024), so [int(...)],
      [/] and [*] round exactly as the interpreter does.
    - Exceptions are values of [Py.exn]; the program runs in a state and
      error monad [M].  The state holds the identity of the next object that
      is allocated and the warnings given to Streamlit.
    - Pillow is a library outside the repository.  Its calls are recorded as
      terms of type [PIL.Picture], with the size each call gives, and they
      fail where Pillow fails for a reason the arguments show: a file that
      is not recognised, is too large to be opened or does not load, a font
      size that is not positive, a font file that is missing, a size that is
      empty or does not fit a C integer.  Three things come from outside and are variables of the
      model: the size Pillow reads from a file, if any; whether the data of
      the file loads; and the set of font files the system has.  Memory is
      not modelled: Pillow and FreeType are taken to get what they ask for,
      and the theorems that promise a result keep to target heights from 10
      to 10000 and to composites within Pillow's own [MAX_IMAGE_PIXELS]. *)

From Stdlib Require Import ZArith Lia Bool Ascii String DecimalString DecimalZ.
From Stdlib Require Import Floats.SpecFloat.
From stdpp Require Import base option list gmap strings.

Open Scope Z_scope.

(** An uploaded file, as Streamlit hands it to the compositor. *)
Record UploadedFile : Type := {
  file_name : string;
  file_data : list Byte.byte
}.

(** ** Python numbers *)

Module Py.

(** The exceptions this program can meet. *)
Inductive exn : Type :=
| UnidentifiedImageError (fp : UploadedFile)
| DecompressionBombError
| IOError
| ZeroDivisionError
| OverflowError
| ValueError.

(** What [except IOError] catches: [IOError] is [OSError], and Pillow's
    [UnidentifiedImageError] is a subclass of it. *)
Definition is_IOError (e : exn) : bool :=
  match e with
  | IOError | UnidentifiedImageError _ => true
  | _ => false
  end.

Inductive result (A : Type) : Type :=
| Ok (a : A)
| Raise (e : exn).
Arguments Ok {A} a.
Arguments Raise {A} e.

Definition float := spec_float.
Definition prec : Z := 53.
Definition emax : Z := 1024.

Definition fmul : float -> float -> float := SFmul prec emax.
Definition fsub : float -> float -> float := SFsub prec emax.

(** [float(n)] for an integer [n]: the nearest binary64 value, or
    [OverflowError] when [n] is too large for one. *)
Definition float_of_int (n : Z) : result float :=
  match binary_normalize prec emax n 0 false with
  | S754_infinity _ => Raise OverflowError
  | x => Ok x
  end.

(** [a / b] on two integers: the correctly rounded quotient. *)
Definition truediv (a b : Z) : result float :=
  match b with
  | Z0 => Raise ZeroDivisionError
  | _ =>
      match a with
      | Z0 => Ok (S754_zero (b <? 0))
      | _ =>
          let '(mz, ez, lz) := SFdiv_core_binary prec emax (Z.abs a) 0 (Z.abs b) 0 in
          match binary_round_aux prec emax (xorb (a <? 0) (b <? 0)) mz ez lz with
          | S754_infinity _ => Raise OverflowError
          | x => Ok x
          end
      end
  end.

(** The integer part of a finite float, rounding toward zero. *)
Definition trunc (x : float) : Z :=
  match x with
  | S754_finite s m e =>
      let a := match e with
               | Z0 => Zpos m
               | Zpos p => Zpos m * Z.pow_pos 2 p
               | Zneg p => Zpos m / Z.pow_pos 2 p
               end in
      if s then - a else a
  | _ => 0
  end.

(** [int(x)] for a float [x]. *)
Definition int (x : float) : result Z :=
  match x with
  | S754_infinity _ => Raise OverflowError
  | S754_nan => Raise ValueError
  | _ => Ok (trunc x)
  end.

(** The literals [0.1] and [1.5]. *)
Definition lit_0_1 : float := S754_finite false 7205759403792794 (-56).
Definition lit_1_5 : float := S754_finite false 6755399441055744 (-52).

(** [chr(n)] for a code point below 256, and [str(n)] for an integer. *)
Definition chr (n : Z) : string := String (ascii_of_N (Z.to_N n)) EmptyString.
Definition str (n : Z) : string := NilZero.string_of_int (Z.to_int n).

(** A Python number as the program handles them: [int] or [float]. *)
Inductive num : Type :=
| Int (z : Z)
| Float (f : float).

(** [n * f] with [n] an integer and [f] a float. *)
Definition int_mul_float (n : Z) (f : float) : result float :=
  match float_of_int n with
  | Ok x => Ok (fmul x f)
  | Raise e => Raise e
  end.

(** [n - y] with [n] an integer and [y] an integer or a float. *)
Definition int_sub (n : Z) (y : num) : result num :=
  match y with
  | Int z => Ok (Int (n - z))
  | Float f =>
      match float_of_int n with
      | Ok x => Ok (Float (fsub x f))
      | Raise e => Raise e
      end
  end.

(** Predicates for the bounds proved below: a shifted mantissa that is
    non-negative with at most [d] digits; a float that is a zero or finite
    and under [2 ^ K]; a float whose sign, when finite, is [sx]. *)
Definition few_digits (d : Z) (mrs : shr_record) : Prop :=
  0 <= shr_m mrs /\ Zdigits2 (shr_m mrs) <= Z.max 0 d.

Definition below (K : Z) (x : float) : Prop :=
  match x with
  | S754_zero _ => True
  | S754_finite _ m e => Zpos (digits2_pos m) + e <= K
  | _ => False
  end.

Definition signed (sx : bool) (x : float) : Prop :=
  match x with
  | S754_finite s _ _ => s = sx
  | _ => True
  end.

End Py.

(** ** Pillow, as far as the compositor uses it *)

Module PIL.

(** What a font object renders with. *)
Inductive font_face : Type :=
| FreeTypeFont (path : string) (size : Z)
| DefaultFont.

(** A font object on the Python heap.  [ImageFont.truetype] and
    [ImageFont.load_default] build a new object at every call, and the font
    classes define neither [__eq__] nor [__ne__]: [a != b] on two fonts is
    Python's default, the comparison of object identity, here [font_id]. *)
Record font : Type := {
  font_id : nat;
  face : font_face
}.

Definition font_ne (a b : font) : bool := negb (Nat.eqb (font_id a) (font_id b)).

(** An image, as the sequence of calls that built it.  Drawing and pasting
    change an image in place: the changed image is the term around the old
    one. *)
Inductive Picture : Type :=
| Opened (fp : UploadedFile) (w h : Z)
    (* Image.open(fp).convert("RGB"), of size w x h *)
| Resized (src : Picture) (w h : Z)
    (* src.resize((w, h)) *)
| Text (base : Picture) (x y : Py.num) (text fill : string) (f : font_face)
    (* ImageDraw.Draw(base).text((x, y), text, fill=fill, font=f) *)
| New (mode : string) (w h : Z) (color : string)
    (* Image.new(mode, (w, h), color=color) *)
| Paste (base im : Picture) (x y : Z).
    (* base.paste(im, (x, y)) *)

Fixpoint size (p : Picture) : Z * Z :=
  match p with
  | Opened _ w h => (w, h)
  | Resized _ w h => (w, h)
  | Text base _ _ _ _ _ => size base
  | New _ w h _ => (w, h)
  | Paste base _ _ _ => size base
  end.

Definition width (p : Picture) : Z := fst (size p).
Definition height (p : Picture) : Z := snd (size p).

(** A size Pillow's C code takes: it parses each side as a C [int]. *)
Definition c_int (v : Z) : bool := (- 2 ^ 31 <=? v) && (v <? 2 ^ 31).

(** [Image.MAX_IMAGE_PIXELS]: the pixel count up to which Pillow takes an
    image to be of ordinary size. *)
Definition MAX_IMAGE_PIXELS : Z := 89478485.

(** The size check of [Image.open]. *)
Definition bomb (w h : Z) : bool :=
  2 * MAX_IMAGE_PIXELS <? Z.max 1 w * Z.max 1 h.

(** The bytes [save(..., format='PNG')] writes for a picture. *)
Inductive bytes : Type :=
| PNG (p : Picture).

End PIL.

(** ** The interpreter state and the monad of the program *)

Record state : Type := {
  next_id : nat;            (* identity of the next object allocated *)
  warnings : list string    (* messages passed to st.warning so far *)
}.

Definition M (A : Type) : Type := state -> Py.result A * state.

Definition ret {A} (a : A) : M A := fun s => (Py.Ok a, s).
Definition raise {A} (e : Py.exn) : M A := fun s => (Py.Raise e, s).
Definition bind {A B} (c : M A) (k : A -> M B) : M B :=
  fun s => match c s with
           | (Py.Ok a, s') => k a s'
           | (Py.Raise e, s') => (Py.Raise e, s')
           end.
Definition lift {A} (r : Py.result A) : M A := fun s => (r, s).
Definition try_except {A} (c : M A) (handler : Py.exn -> M A) : M A :=
  fun s => match c s with
           | (Py.Ok a, s') => (Py.Ok a, s')
           | (Py.Raise e, s') => handler e s'
           end.

Notation "'let*' x ':=' c 'in' k" := (bind c (fun x => k))
  (at level 10, x pattern, c at level 100, k at level 200).

Definition alloc_font (f : PIL.font_face) : M PIL.font :=
  fun s => (Py.Ok {| PIL.font_id := next_id s; PIL.face := f |},
            {| next_id := S (next_id s); warnings := warnings s |}).

Definition st_warning (msg : string) : M unit :=
  fun s => (Py.Ok tt, {| next_id := next_id s; warnings := warnings s ++ [msg] |}).

Definition sum (l : list Z) : Z := foldr Z.add 0 l.

(** ** The program *)

Definition to_letter (num : Z) : string :=
  if (1 <=? num) && (num <=? 5) then Py.chr (96 + num) else Py.str num.

Section Compositor.

(** The size Pillow reads from the head of a file, [None] when it cannot
    identify the file as an image; whether the data of an identified file
    loads; and the font files the system has. *)
Variable identify : UploadedFile -> option (Z * Z).
Variable loads : UploadedFile -> bool.
Variable fonts : gset string.

(** [Image.open(fp).convert("RGB")].  [Image.open] raises
    [UnidentifiedImageError] for a file it does not recognise and
    [DecompressionBombError] for an image of more than twice
    [MAX_IMAGE_PIXELS] pixels; [convert] loads the data and raises [OSError],
    which is [IOError], when the data is cut short or broken. *)
Definition Image_open (fp : UploadedFile) : M PIL.Picture :=
  match identify fp with
  | Some (w, h) =>
      if PIL.bomb w h then raise Py.DecompressionBombError
      else if loads fp then ret (PIL.Opened fp w h)
      else raise Py.IOError
  | None => raise (Py.UnidentifiedImageError fp)
  end.

(** [img.resize((w, h))]: [OverflowError] for a side that is no C [int],
    [ValueError] ("height and width must be > 0") for a side under 1. *)
Definition resize (img : PIL.Picture) (w h : Z) : M PIL.Picture :=
  if negb (PIL.c_int w && PIL.c_int h) then raise Py.OverflowError
  else if (w <? 1) || (h <? 1) then raise Py.ValueError
  else ret (PIL.Resized img w h).

(** [Image.new(mode, (w, h), color=color)]: [ValueError] for a negative
    side, [OverflowError] for a side that is no C [int]. *)
Definition Image_new (mode : string) (w h : Z) (color : string) : M PIL.Picture :=
  if (w <? 0) || (h <? 0) then raise Py.ValueError
  else if negb (PIL.c_int w && PIL.c_int h) then raise Py.OverflowError
  else ret (PIL.New mode w h color).

(** [ImageFont.truetype(name, size=size)]: [ValueError] ("font size must be
    greater than 0") for a size that is not positive, before the file is
    looked for; [IOError] when the system has no such font file. *)
Definition truetype (name : string) (size : Z) : M PIL.font :=
  if size <=? 0 then raise Py.ValueError
  else if decide (name ∈ fonts) then alloc_font (PIL.FreeTypeFont name size)
  else raise Py.IOError.

Definition load_default : M PIL.font := alloc_font PIL.DefaultFont.

Definition arial_warning : string :=
  "Arial font not found. Using default font for labels.".

(** Step 1: the font and the [font_size] the labels are placed with. *)
Definition font_setup (target_height : Z) : M (PIL.font * Z) :=
  let* x := lift (Py.int_mul_float target_height Py.lit_0_1) in
  let* font_size := lift (Py.int x) in
  try_except
    (let* font := truetype "arial.ttf" font_size in
     ret (font, font_size))
    (fun e =>
       if Py.is_IOError e then
         let* _ := st_warning arial_warning in
         let* font := load_default in
         ret (font, 18)
       else raise e).

(** The width an image of size [width] x [height] is resized to. *)
Definition new_width (width height target_height : Z) : Py.result Z :=
  match Py.truediv target_height height with
  | Py.Ok ratio =>
      match Py.int_mul_float width ratio with
      | Py.Ok x => Py.int x
      | Py.Raise e => Py.Raise e
      end
  | Py.Raise e => Py.Raise e
  end.

(** Where the label goes, counted up from the bottom edge. *)
Definition text_y_offset (font : PIL.font) (font_size : Z) : M Py.num :=
  let* default := load_default in
  if PIL.font_ne font default then
    let* x := lift (Py.int_mul_float font_size Py.lit_1_5) in
    ret (Py.Float x)
  else ret (Py.Int 25).

(** Step 2, one turn of the loop: open, resize and label one file. *)
Definition label_image (i : Z) (file : UploadedFile) (target_height : Z)
    (font : PIL.font) (font_size : Z) : M PIL.Picture :=
  let* img := Image_open file in
  let '(width, height) := PIL.size img in
  let* new_width := lift (new_width width height target_height) in
  let* img_resized := resize img new_width target_height in
  let label_text := to_letter (i + 1) in
  let* off := text_y_offset font font_size in
  let* y := lift (Py.int_sub target_height off) in
  ret (PIL.Text img_resized (Py.Int 10) y label_text "black" (PIL.face font)).

Fixpoint label_images (i : Z) (image_files : list UploadedFile) (target_height : Z)
    (font : PIL.font) (font_size : Z) (images : list PIL.Picture)
    : M (list PIL.Picture) :=
  match image_files with
  | [] => ret images
  | file :: rest =>
      let* img := label_image i file target_height font font_size in
      label_images (i + 1) rest target_height font font_size (images ++ [img])
  end.

(** Step 4, the paste loop. *)
Fixpoint paste_all (combined_image : PIL.Picture) (current_x : Z)
    (images : list PIL.Picture) : PIL.Picture :=
  match images with
  | [] => combined_image
  | img :: rest =>
      paste_all (PIL.Paste combined_image img current_x 0)
                (current_x + PIL.width img) rest
  end.

(** The composite of [images], when [Image.new] makes the canvas. *)
Definition combine (images : list PIL.Picture) (target_height : Z) : PIL.Picture :=
  paste_all (PIL.New "RGB" (sum (map PIL.width images)) target_height "white") 0 images.

Definition process_and_combine_images (image_files : list UploadedFile)
    (target_height : Z) : M (option PIL.bytes) :=
  match image_files with
  | [] => ret None
  | _ =>
      let* fs := font_setup target_height in
      let '(font, font_size) := fs in
      let* images := label_images 0 image_files target_height font font_size [] in
      let total_width := sum (map PIL.width images) in
      let* combined_image := Image_new "RGB" total_width target_height "white" in
      ret (Some (PIL.PNG (paste_all combined_image 0 images)))
  end.

End Compositor.

(** ** Observations on the result, used to state the properties *)

(** Pillow keeps image sizes in C integers. *)
Definition max_dim : Z := 2 ^ 31.

Definition valid_size (wh : Z * Z) : bool :=
  (0 <? fst wh) && (fst wh <? max_dim) && (0 <? snd wh) && (snd wh <? max_dim).

(** A file Pillow decodes, to an image of a valid size. *)
Definition decodable (identify : UploadedFile -> option (Z * Z))
    (loads : UploadedFile -> bool) (f : UploadedFile) : bool :=
  match identify f with
  | Some wh => valid_size wh && negb (PIL.bomb (fst wh) (snd wh)) && loads f
  | None => false
  end.

(** The width the program resizes a file's image to. *)
Definition rescaled_width (identify : UploadedFile -> option (Z * Z))
    (target_height : Z) (f : UploadedFile) : Z :=
  match identify f with
  | Some (w, h) =>
      match new_width w h target_height with
      | Py.Ok n => n
      | Py.Raise _ => 0
      end
  | None => 0
  end.

(** The paste calls that built a picture, first call first. *)
Fixpoint pastes (p : PIL.Picture) : list (PIL.Picture * Z * Z) :=
  match p with
  | PIL.Paste base im x y => pastes base ++ [(im, x, y)]
  | _ => []
  end.

(** The picture under the paste calls. *)
Fixpoint canvas (p : PIL.Picture) : PIL.Picture :=
  match p with
  | PIL.Paste base _ _ _ => canvas base
  | _ => p
  end.

(** The text call made on a picture: label, position and font. *)
Definition label_of (p : PIL.Picture) : option string :=
  match p with
  | PIL.Text _ _ _ text _ _ => Some text
  | _ => None
  end.

Definition label_xy (p : PIL.Picture) : option (Py.num * Py.num) :=
  match p with
  | PIL.Text _ x y _ _ _ => Some (x, y)
  | _ => None
  end.

Definition label_font (p : PIL.Picture) : option PIL.font_face :=
  match p with
  | PIL.Text _ _ _ _ _ f => Some f
  | _ => None
  end.

(** The picture a text call was made on. *)
Definition unlabelled (p : PIL.Picture) : PIL.Picture :=
  match p with
  | PIL.Text base _ _ _ _ _ => base
  | _ => p
  end.

(** [Labelled identify loads th face y i files images]: [images] are the
    files of [files], each decoded, resized to height [th] and to a width
    Pillow takes, and labelled at [(10, y)] in font [face], the first one
    with the label of position [i + 1]. *)
Inductive Labelled (identify : UploadedFile -> option (Z * Z))
    (loads : UploadedFile -> bool) (th : Z)
    (face : PIL.font_face) (y : Py.num)
    : Z -> list UploadedFile -> list PIL.Picture -> Prop :=
| Labelled_nil (i : Z) : Labelled identify loads th face y i [] []
| Labelled_cons (i : Z) (f : UploadedFile) (files : list UploadedFile)
    (w h nw : Z) (images : list PIL.Picture) :
    identify f = Some (w, h) ->
    PIL.bomb w h = false ->
    loads f = true ->
    new_width w h th = Py.Ok nw ->
    1 <= nw < 2 ^ 31 ->
    Labelled identify loads th face y (i + 1) files images ->
    Labelled identify loads th face y i (f :: files)
      (PIL.Text (PIL.Resized (PIL.Opened f w h) nw th)
                (Py.Int 10) y (to_letter (i + 1)) "black" face :: images).

(** The decimal numeral of an integer, read back. *)
Definition int_of_decimal (s : string) : option Z :=
  match NilZero.int_of_string s with
  | Some d => Some (Z.of_int d)
  | None => None
  end.

(** ** Closed forms used in the statements *)

(** The state after [n] more font objects were made, and after the warning. *)
Definition after (n : nat) (s : state) : state :=
  {| next_id := n + next_id s; warnings := warnings s |}.

Definition warned (s : state) : state :=
  {| next_id := next_id s; warnings := warnings s ++ [arial_warning] |}.

(** [target_height - font_size * 1.5], as Python computes it. *)
Definition label_position (th font_size : Z) : Py.result Py.num :=
  match Py.int_mul_float font_size Py.lit_1_5 with
  | Py.Ok x => Py.int_sub th (Py.Float x)
  | Py.Raise e => Py.Raise e
  end.

(** The font face the labels are drawn in, the [font_size] they are placed
    with, and the state a successful run on [n] files ends in. *)
Definition resolved_face (fonts : gset string) (font_size : Z) : PIL.font_face :=
  if decide ("arial.ttf" ∈ fonts) then PIL.FreeTypeFont "arial.ttf" font_size
  else PIL.DefaultFont.

Definition resolved_size (fonts : gset string) (font_size : Z) : Z :=
  if decide ("arial.ttf" ∈ fonts) then font_size else 18.

Definition final_state (fonts : gset string) (n : nat) (s : state) : state :=
  if decide ("arial.ttf" ∈ fonts) then after (S n) s else after (S n) (warned s).

(** What a run that returns a composite went through: the list is not
    empty; [int(target_height * 0.1)] is [trunc x], at least 1; the labels
    are placed at [y]; the height is one Pillow takes; [images] are the
    labelled images, of a total width Pillow takes. *)
Definition run_facts (identify : UploadedFile -> option (Z * Z))
    (loads : UploadedFile -> bool) (fonts : gset string)
    (files : list UploadedFile) (th : Z)
    (x : Py.float) (y : Py.num) (images : list PIL.Picture) : Prop :=
  files <> []
  /\ Py.int_mul_float th Py.lit_0_1 = Py.Ok x
  /\ Py.int x = Py.Ok (Py.trunc x) /\ 1 <= Py.trunc x
  /\ label_position th (resolved_size fonts (Py.trunc x)) = Py.Ok y
  /\ 1 <= th < 2 ^ 31
  /\ Labelled identify loads th (resolved_face fonts (Py.trunc x)) y 0 files images
  /\ sum (map PIL.width images) < 2 ^ 31.

(** [a / b] rounded to the nearest integer, halves up, for [b > 0]. *)
Definition nearest_int (a b : Z) : Z := (2 * a + b) / (2 * b).

(** The label rule in the words of the specification. *)
Definition Label (i : Z) : string :=
  if (1 <=? i) && (i <=? 5) then Py.chr (Z.of_N (N_of_ascii "a") + i - 1)
  else Py.str i.

(** Whether [int(th * 0.1)] is the integer quotient of [th] by 10. *)
Definition tenth_agrees (th : Z) : bool :=
  match Py.int_mul_float th Py.lit_0_1 with
  | Py.Ok x => Py.trunc x =? th / 10
  | Py.Raise _ => false
  end.

(** The target heights and the rows of files the theorems that promise a
    result keep to: heights from 10 to 10000; files that decode and are
    resized to a width of at least 1 that fits a C [int]; a composite of at
    most [MAX_IMAGE_PIXELS] pixels. *)
Definition height_ok (th : Z) : bool := (10 <=? th) && (th <=? 10000).

Definition resizes (identify : UploadedFile -> option (Z * Z))
    (loads : UploadedFile -> bool) (th : Z) (f : UploadedFile) : bool :=
  decodable identify loads f
  && (1 <=? rescaled_width identify th f)
  && (rescaled_width identify th f <? 2 ^ 31).

Definition row_ok (identify : UploadedFile -> option (Z * Z))
    (loads : UploadedFile -> bool) (th : Z) (files : list UploadedFile) : bool :=
  forallb (resizes identify loads th) files
  && (sum (map (rescaled_width identify th) files) * th <=? PIL.MAX_IMAGE_PIXELS).

(** A file Pillow does not decode, and the error it raises for it:
    [UnidentifiedImageError] with the file when it does not recognise the
    file, [DecompressionBombError] when the image is too large, [IOError]
    when the data does not load. *)
Definition undecodable (identify : UploadedFile -> option (Z * Z))
    (loads : UploadedFile -> bool) (f : UploadedFile) : bool :=
  match identify f with
  | Some (w, h) => PIL.bomb w h || negb (loads f)
  | None => true
  end.

Definition decode_error (identify : UploadedFile -> option (Z * Z))
    (f : UploadedFile) : Py.exn :=
  match identify f with
  | Some (w, h) => if PIL.bomb w h then Py.DecompressionBombError else Py.IOError
  | None => Py.UnidentifiedImageError f
  end.

(** The errors of decoding, and what an error of decoding that leaves the
    run says of a file: it was not recognised, it is too large, or its data
    did not load. *)
Definition decoding_error (e : Py.exn) : bool :=
  match e with
  | Py.UnidentifiedImageError _ | Py.DecompressionBombError | Py.IOError => true
  | _ => false
  end.

Definition file_raises (identify : UploadedFile -> option (Z * Z))
    (loads : UploadedFile -> bool) (f : UploadedFile) (e : Py.exn) : Prop :=
  match e with
  | Py.UnidentifiedImageError g => g = f /\ identify f = None
  | Py.DecompressionBombError =>
      exists w h, identify f = Some (w, h) /\ PIL.bomb w h = true
  | Py.IOError =>
      exists w h, identify f = Some (w, h) /\ PIL.bomb w h = false /\ loads f = false
  | _ => False
  end.

(** Readings that the program does not meet: the resized width is the
    nearest integer to the exact quotient; the font is loaded at the nearest
    integer to a tenth of the height; the decoding error tells the position
    of the file that failed; the run returns a composite of the summed
    widths; a composite has a slot of width 0. *)
Definition width_rounds_to_nearest (w h th : Z) : Prop :=
  new_width w h th = Py.Ok (nearest_int (w * th) h).

Definition font_size_rounds_to_nearest (fonts : gset string) (th : Z) (s : state) : Prop :=
  exists font s',
    font_setup fonts th s = (Py.Ok (font, nearest_int th 10), s')
    /\ PIL.face font = PIL.FreeTypeFont "arial.ttf" (nearest_int th 10).

Definition error_names_position (identify : UploadedFile -> option (Z * Z))
    (loads : UploadedFile -> bool) (fonts : gset string) (th : Z) (s : state) : Prop :=
  exists position_of : Py.exn -> nat,
    forall (before : list UploadedFile) (f : UploadedFile) (rest : list UploadedFile),
      row_ok identify loads th before = true ->
      undecodable identify loads f = true ->
      exists e s',
        process_and_combine_images identify loads fonts (before ++ f :: rest) th s
          = (Py.Raise e, s')
        /\ position_of e = S (length before).

Definition composite_returned (identify : UploadedFile -> option (Z * Z))
    (loads : UploadedFile -> bool) (fonts : gset string)
    (files : list UploadedFile) (th : Z) (s : state) : Prop :=
  exists c s',
    process_and_combine_images identify loads fonts files th s
      = (Py.Ok (Some (PIL.PNG c)), s')
    /\ PIL.size c = (sum (map (rescaled_width identify th) files), th).

Definition composite_with_empty_slot (identify : UploadedFile -> option (Z * Z))
    (loads : UploadedFile -> bool) (fonts : gset string)
    (files : list UploadedFile) (th : Z) (s : state) : Prop :=
  exists c s' (k : nat) p off,
    process_and_combine_images identify loads fonts files th s
      = (Py.Ok (Some (PIL.PNG c)), s')
    /\ pastes c !! k = Some (p, off, 0)
    /\ PIL.width p = 0.

(** ** Sample inputs *)

Module Sample.

Definition file (name : string) : UploadedFile :=
  {| file_name := name; file_data := [] |}.

(** A 100 x 200 image, a 300 x 100 image, a 1 x 1000 image, a 2 x 3 image,
    a file that is no image and a 50 x 50 image whose data is cut short. *)
Definition image_a : UploadedFile := file "a.png".
Definition image_b : UploadedFile := file "b.png".
Definition thin : UploadedFile := file "thin.png".
Definition small : UploadedFile := file "small.png".
Definition corrupt : UploadedFile := file "corrupt.png".
Definition truncated : UploadedFile := file "truncated.png".

Definition identify (f : UploadedFile) : option (Z * Z) :=
  if String.eqb (file_name f) "a.png" then Some (100, 200)
  else if String.eqb (file_name f) "b.png" then Some (300, 100)
  else if String.eqb (file_name f) "thin.png" then Some (1, 1000)
  else if String.eqb (file_name f) "small.png" then Some (2, 3)
  else if String.eqb (file_name f) "truncated.png" then Some (50, 50)
  else None.

Definition loads (f : UploadedFile) : bool :=
  negb (String.eqb (file_name f) "truncated.png").

Definition with_arial : gset string := {[ "arial.ttf" ]}.
Definition without_arial : gset string := ∅.

Definition start : state := {| next_id := 0; warnings := [] |}.

(** The composite a run from [start] returns, and the state it ends in. *)
Definition row (fonts : gset string) (files : list UploadedFile) (th : Z) : PIL.Picture :=
  match fst (process_and_combine_images identify loads fonts files th start) with
  | Py.Ok (Some (PIL.PNG c)) => c
  | _ => PIL.New "RGB" 0 0 "white"
  end.

Definition ended (fonts : gset string) (files : list UploadedFile) (th : Z) : state :=
  snd (process_and_combine_images identify loads fonts files th start).

End Sample.

(** The shift record of an exact value, and a float that holds the positive
    integer [v] with sign [sx]: mantissa [v * 2 ^ u] at exponent [- u]. *)
Definition exact_record (m : Z) : shr_record :=
  {| shr_m := m; shr_r := false; shr_s := false |}.

Definition holds_int (sx : bool) (v : Z) (x : Py.float) : Prop :=
  exists (m : positive) (u : Z),
    x = S754_finite sx m (- u) /\ 0 <= u /\ Zpos m = v * 2 ^ u.

(** ** The Streamlit page *)

(** The calls the page makes to Streamlit, in the order it makes them.
    ([st.warning] is the one call made inside the compositor: it goes to the
    [warnings] of the state.) *)
Module st.

Inductive call : Type :=
| set_page_config (page_title layout initial_sidebar_state : string)
| title (body : string)
| subheader (body : string)
| markdown (body : string)
| file_uploader (label : string) (type : list string) (accept_multiple_files : bool)
| error (body : string)
| success (body : string)
| slider (label : string) (min_value max_value value step : Z)
| info (body : string)
| spinner (text : string)
| header (body : string)
| image (image : PIL.bytes) (caption : string)
| download_button (label : string) (data : PIL.bytes) (file_name mime : string).

End st.

(** The calls before the page looks at the uploaded files. *)
Definition page_top : list st.call :=
  [ st.set_page_config "Medical Image Combiner" "centered" "collapsed";
    st.title "🔬 Thesis Image Evolution Generator";
    st.subheader "Combine Medical Evolution Images into a Single, Labeled Row";
    st.markdown "---";
    st.file_uploader
      "1. **Upload Your Images:** Drag and drop up to 5 images here (PNG, JPG, JPEG)"
      ["png"; "jpg"; "jpeg"]%string true ].

(** The calls that show a result. *)
Definition page_result (combined_image_bytes : PIL.bytes) : list st.call :=
  [ st.header "✨ Generated Image Preview";
    st.image combined_image_bytes "Final Combined Image (a, b, c, ...)";
    st.download_button "⬇️ Download Combined Image (PNG)" combined_image_bytes
      "medical_evolution_row_a_to_e.png" "image/png";
    st.markdown "
            *Tip: The image is already optimized for thesis insertion (same height, perfectly aligned).*
            " ].

(** One run of the script, lines 83 to 143: [uploaded_files] is what the
    uploader returns and [slider_value] what the slider returns.  The result
    is the list of calls made, whether the script ended or raised, and the
    state. *)
Definition page (identify : UploadedFile -> option (Z * Z))
    (loads : UploadedFile -> bool) (fonts : gset string)
    (uploaded_files : list UploadedFile) (slider_value : Z) (s : state)
    : list st.call * Py.result unit * state :=
  match uploaded_files with
  | [] =>
      (page_top ++
       [st.info "Please complete step 1 by dragging and dropping your evolution images above to begin."],
       Py.Ok tt, s)
  | _ =>
      let too_many := 5 <? Z.of_nat (length uploaded_files) in
      let calls :=
        page_top ++
        (if too_many
         then [st.error "⚠️ Maximum of 5 images allowed. Please remove some files."]
         else []) in
      let uploaded_files := if too_many then take 5 uploaded_files else uploaded_files in
      let calls :=
        calls ++
        [ st.success ("Processing " ++ Py.str (Z.of_nat (length uploaded_files))
                      ++ " image(s)...");
          st.slider "2. **Set the Uniform Height** (in pixels) for all images:"
                    200 800 400 50 ] in
      let target_height := slider_value in
      let calls :=
        calls ++
        [ st.info "The images will be resized to this height while preserving their original aspect ratio (width).";
          st.spinner "3. Generating combined image..." ] in
      match process_and_combine_images identify loads fonts uploaded_files
              target_height s with
      | (Py.Raise e, s') => (calls, Py.Raise e, s')
      | (Py.Ok combined_image_bytes, s') =>
          let calls := calls ++ [st.markdown "---"] in
          match combined_image_bytes with
          | Some b => (calls ++ page_result b, Py.Ok tt, s')
          | None => (calls, Py.Ok tt, s')
          end
      end
  end.

(** A value the slider can return: from 200 to 800 in steps of 50. *)
Definition slider_value_ok (v : Z) : bool :=
  (200 <=? v) && (v <=? 800) && ((v - 200) mod 50 =? 0).

(** The calls that hand out image bytes. *)
Definition shows_bytes (c : st.call) : bool :=
  match c with
  | st.image _ _ | st.download_button _ _ _ _ => true
  | _ => false
  end.

(** ** Facts on binary64 rounding: no result of the program overflows *)

Module FloatFacts.

Import Py.

(** The two literals are the floats nearest to 1/10 and to 3/2. *)
Example lit_0_1_is_tenth : truediv 1 10 = Ok lit_0_1.
Proof. reflexivity. Qed.

Example lit_1_5_is_three_halves : truediv 3 2 = Ok lit_1_5.
Proof. reflexivity. Qed.

(** [digits2_pos] counts binary digits: [2 ^ (d - 1) <= m < 2 ^ d]. *)

Lemma digits2_pos_size (p : positive) : digits2_pos p = Pos.size p.
Proof. induction p; simpl; congruence. Qed.

Lemma Zdigits2_nonneg (m : Z) : 0 <= Zdigits2 m.
Proof. destruct m; simpl; lia. Qed.

Lemma Zdigits2_ub (m : Z) : 0 <= m -> m < 2 ^ Zdigits2 m.
Proof.
  destruct m as [|p|p]; simpl; [lia | | lia]. intros _.
  rewrite digits2_pos_size.
  pose proof (Pos.size_gt p) as H.
  apply Pos2Z.pos_lt_pos in H. now rewrite Pos2Z.inj_pow in H.
Qed.

Lemma Zdigits2_lb (m : Z) : 0 < m -> 2 ^ (Zdigits2 m - 1) <= m.
Proof.
  destruct m as [|p|p]; simpl; [lia | | lia]. intros _.
  rewrite digits2_pos_size.
  pose proof (Pos.size_le p) as H.
  apply Pos2Z.pos_le_pos in H. rewrite Pos2Z.inj_pow in H.
  change (Z.pos p~0) with (2 * Z.pos p) in H.
  replace (Z.pos (Pos.size p)) with (Z.succ (Z.pos (Pos.size p) - 1)) in H by lia.
  rewrite Z.pow_succ_r in H by lia. lia.
Qed.

Lemma Zdigits2_le (m k : Z) : 0 <= k -> 0 <= m < 2 ^ k -> Zdigits2 m <= k.
Proof.
  intros Hk [H0 Hm].
  destruct (Z.eq_dec m 0) as [->|Hne]; [simpl; lia|].
  pose proof (Zdigits2_lb m ltac:(lia)) as Hlb.
  pose proof (Zdigits2_nonneg m).
  assert (2 ^ (Zdigits2 m - 1) < 2 ^ k) as Hlt by lia.
  apply Z.pow_lt_mono_r_iff in Hlt; lia.
Qed.

Lemma Zdigits2_succ (m : Z) : 0 <= m -> Zdigits2 (m + 1) <= Zdigits2 m + 1.
Proof.
  intros Hm. pose proof (Zdigits2_nonneg m).
  apply Zdigits2_le; [lia|]. split; [lia|].
  pose proof (Zdigits2_ub m Hm).
  rewrite Z.pow_add_r by lia. change (2 ^ 1) with 2. lia.
Qed.

(** Shifting right keeps the mantissa non-negative and drops digits. *)
Lemma shr_1_digits (d : Z) (mrs : shr_record) :
  few_digits d mrs -> few_digits (d - 1) (shr_1 mrs).
Proof.
  destruct mrs as [m r s]. unfold few_digits. simpl.
  destruct m as [|[p|p|]|p]; simpl; lia.
Qed.

Lemma iter_shr_1_digits (p : positive) :
  forall d mrs, few_digits d mrs -> few_digits (d - Zpos p) (SpecFloat.iter_pos shr_1 p mrs).
Proof.
  induction p as [p IH|p IH|]; intros d mrs H; simpl.
  - apply shr_1_digits, IH, IH in H.
    replace (d - Z.pos p~1) with (d - 1 - Z.pos p - Z.pos p) by lia. exact H.
  - apply IH, IH in H.
    replace (d - Z.pos p~0) with (d - Z.pos p - Z.pos p) by lia. exact H.
  - now apply shr_1_digits.
Qed.

(** What [shr_fexp] returns when the value is below [2 ^ K]. *)
Lemma shr_fexp_bounded (m e : Z) (l : location) (K : Z) :
  0 <= m -> e <= emax - prec -> Zdigits2 m + e <= K -> 0 <= K <= emax ->
  let '(mrs, e') := shr_fexp prec emax m e l in
  0 <= shr_m mrs /\ e' <= emax - prec /\ Zdigits2 (shr_m mrs) + e' <= K.
Proof.
  intros Hm He HK HK'. unfold shr_fexp, shr.
  pose proof (Zdigits2_nonneg m) as Hd.
  assert (shr_m (shr_record_of_loc m l) = m) as Hrec
    by (destruct l as [|[]]; reflexivity).
  destruct (fexp prec emax (Zdigits2 m + e) - e) as [|n|n] eqn:Hn;
    rewrite ?Hrec; try (split; [lia|split; lia]).
  assert (few_digits (Zdigits2 m) (shr_record_of_loc m l)) as Hf
    by (unfold few_digits; rewrite Hrec; lia).
  apply (iter_shr_1_digits n) in Hf. destruct Hf as [Hf0 Hf1].
  unfold fexp, emin, prec, emax in *.
  split; [exact Hf0|]. split; lia.
Qed.

(** Rounding a value under [2 ^ K] gives a zero or a finite float under
    [2 ^ (K + 1)]: never an infinity, never a NaN. *)
Lemma binary_round_aux_below (sx : bool) (mx ex : Z) (lx : location) (K : Z) :
  0 <= mx -> ex <= emax - prec -> Zdigits2 mx + ex <= K -> 0 <= K < emax ->
  below (K + 1) (binary_round_aux prec emax sx mx ex lx).
Proof.
  intros Hm He HK HK'. unfold binary_round_aux.
  pose proof (shr_fexp_bounded mx ex lx K Hm He HK ltac:(lia)) as H1.
  destruct (shr_fexp prec emax mx ex lx) as [mrs' e'].
  destruct H1 as (H1a & H1b & H1c).
  set (m1 := round_nearest_even (shr_m mrs') (loc_of_shr_record mrs')).
  assert (0 <= m1 /\ Zdigits2 m1 <= Zdigits2 (shr_m mrs') + 1) as [Hm1 Hd1].
  { subst m1. pose proof (Zdigits2_succ _ H1a).
    unfold round_nearest_even.
    destruct (loc_of_shr_record mrs') as [|[]]; try (split; lia).
    destruct (Z.even (shr_m mrs')); split; lia. }
  pose proof (shr_fexp_bounded m1 e' loc_Exact (K + 1) Hm1 H1b ltac:(lia) ltac:(lia)) as H2.
  destruct (shr_fexp prec emax m1 e' loc_Exact) as [mrs'' e''].
  destruct H2 as (H2a & H2b & H2c).
  destruct (shr_m mrs'') as [|p|p] eqn:Hp; simpl; [exact I| |lia].
  replace (e'' <=? emax - prec) with true by (symmetry; apply Z.leb_le; exact H2b).
  simpl. simpl in H2c. exact H2c.
Qed.

(** The sign of a rounded value is the sign it was given. *)
Lemma binary_round_aux_signed (sx : bool) (mx ex : Z) (lx : location) :
  signed sx (binary_round_aux prec emax sx mx ex lx).
Proof.
  unfold binary_round_aux.
  destruct (shr_fexp prec emax mx ex lx) as [mrs' e'].
  destruct (shr_fexp _ _ _ e' loc_Exact) as [mrs'' e''].
  destruct (shr_m mrs''); simpl; [exact I| |exact I].
  destruct (e'' <=? emax - prec); simpl; auto.
Qed.

Lemma digits2_pos_iter_xO (d p : positive) :
  digits2_pos (Pos.iter xO p d) = (digits2_pos p + d)%positive.
Proof.
  induction d as [|d IH] using Pos.peano_ind.
  - simpl. lia.
  - rewrite Pos.iter_succ. simpl. rewrite IH. lia.
Qed.

(** [float(n)], [a / b] and [x * y] stay finite on values of moderate size. *)
Lemma binary_round_below (sx : bool) (p : positive) (K : Z) :
  Zpos p < 2 ^ K -> 0 <= K < emax ->
  below (K + 1) (binary_round prec emax sx p 0)
  /\ signed sx (binary_round prec emax sx p 0).
Proof.
  intros Hp HK. unfold binary_round.
  destruct (shl_align p 0 (fexp prec emax (Z.pos (digits2_pos p) + 0))) as [mz ez] eqn:Hs.
  split; [|apply binary_round_aux_signed].
  assert (Zdigits2 (Zpos p) <= K) as Hd by (apply Zdigits2_le; lia).
  simpl in Hd. unfold shl_align in Hs.
  apply binary_round_aux_below; try lia.
  - destruct (fexp prec emax (Z.pos (digits2_pos p) + 0) - 0) eqn:Hf;
      inversion Hs; subst; unfold emax, prec in *; lia.
  - destruct (fexp prec emax (Z.pos (digits2_pos p) + 0) - 0) as [|d|d] eqn:Hf;
      inversion Hs; subst; simpl; try lia.
    rewrite digits2_pos_iter_xO. lia.
Qed.

Lemma float_of_int_below (n K : Z) :
  Z.abs n < 2 ^ K -> 0 <= K < emax ->
  exists x, float_of_int n = Ok x /\ below (K + 1) x /\ signed (n <? 0) x.
Proof.
  intros Hn HK. unfold float_of_int, binary_normalize.
  destruct n as [|p|p].
  - eexists; split; [reflexivity|]. split; exact I.
  - destruct (binary_round_below false p K ltac:(lia) HK) as [Hb Hs].
    destruct (binary_round prec emax false p 0) eqn:E; try contradiction;
      eexists; (split; [reflexivity|]); split; assumption.
  - destruct (binary_round_below true p K ltac:(lia) HK) as [Hb Hs].
    destruct (binary_round prec emax true p 0) eqn:E; try contradiction;
      eexists; (split; [reflexivity|]); split; assumption.
Qed.

Lemma div_core_below (m1 m2 K : Z) :
  0 < m1 < 2 ^ K -> 0 < m2 -> 0 <= K ->
  let '(q, e', _) := SFdiv_core_binary prec emax m1 0 m2 0 in
  0 <= q /\ e' <= 0 /\ Zdigits2 q + e' <= K.
Proof.
  intros Hm1 Hm2 HK. unfold SFdiv_core_binary.
  set (e' := Z.min (fexp prec emax (Zdigits2 m1 + 0 - (Zdigits2 m2 + 0))) (0 - 0)).
  assert (e' <= 0) as He' by (subst e'; lia).
  set (m' := match 0 - 0 - e' with
             | 0 => m1
             | Z.pos _ => Z.shiftl m1 (0 - 0 - e')
             | Z.neg _ => 0
             end).
  assert (0 <= m' < 2 ^ (K - e')) as Hm'.
  { subst m'. destruct (0 - 0 - e') as [|s|s] eqn:Hs; try lia.
    - replace (K - e') with K by lia. lia.
    - rewrite Z.shiftl_mul_pow2 by lia.
      replace (K - e') with (K + Z.pos s) by lia.
      rewrite Z.pow_add_r by lia.
      assert (0 < 2 ^ Z.pos s) by (apply Z.pow_pos_nonneg; lia). nia. }
  pose proof (Z_div_mod m' m2 ltac:(lia)) as Hdiv.
  destruct (Z.div_eucl m' m2) as [q r]. destruct Hdiv as [Heq Hr].
  assert (0 <= q <= m') as Hq by nia.
  split; [lia|]. split; [exact He'|].
  assert (Zdigits2 q <= K - e'); [|lia].
  apply Zdigits2_le; lia.
Qed.

Lemma truediv_below (a b K : Z) :
  Z.abs a < 2 ^ K -> b <> 0 -> 0 <= K < emax ->
  exists x, truediv a b = Ok x /\ below (K + 1) x
            /\ signed (xorb (a <? 0) (b <? 0)) x.
Proof.
  intros Ha Hb HK.
  assert (a = 0 \/ a <> 0) as [->|Ha0] by lia.
  { exists (S754_zero (b <? 0)). unfold truediv.
    destruct b; [congruence| |]; (split; [reflexivity|split; exact I]). }
  pose proof (div_core_below (Z.abs a) (Z.abs b) K ltac:(lia) ltac:(lia) ltac:(lia)) as H.
  assert (truediv a b =
          let '(mz, ez, lz) := SFdiv_core_binary prec emax (Z.abs a) 0 (Z.abs b) 0 in
          match binary_round_aux prec emax (xorb (a <? 0) (b <? 0)) mz ez lz with
          | S754_infinity _ => Raise OverflowError
          | x => Ok x
          end) as ->
    by (unfold truediv; destruct b; [congruence| |]; destruct a; congruence).
  destruct (SFdiv_core_binary prec emax (Z.abs a) 0 (Z.abs b) 0) as [[mz ez] lz].
  destruct H as (H0 & H1 & H2).
  pose proof (binary_round_aux_below (xorb (a <? 0) (b <? 0)) mz ez lz K
                H0 ltac:(unfold emax, prec; lia) H2 HK) as Hbelow.
  pose proof (binary_round_aux_signed (xorb (a <? 0) (b <? 0)) mz ez lz) as Hsign.
  destruct (binary_round_aux prec emax (xorb (a <? 0) (b <? 0)) mz ez lz);
    try contradiction; eexists; (split; [reflexivity|]); split; assumption.
Qed.

Lemma fmul_below (x y : float) (K1 K2 : Z) :
  below K1 x -> below K2 y -> 0 <= K1 + K2 <= emax - prec ->
  below (K1 + K2 + 1) (fmul x y).
Proof.
  intros Hx Hy HK. unfold fmul, SFmul.
  destruct x as [sx|sx| |sx mx ex]; try contradiction;
    destruct y as [sy|sy| |sy my ey]; try contradiction; try exact I.
  simpl in Hx, Hy.
  assert (Zdigits2 (Z.pos (mx * my)) <= Z.pos (digits2_pos mx) + Z.pos (digits2_pos my)) as Hd.
  { apply Zdigits2_le; [lia|]. split; [lia|].
    pose proof (Zdigits2_ub (Z.pos mx) ltac:(lia)) as H1.
    pose proof (Zdigits2_ub (Z.pos my) ltac:(lia)) as H2.
    simpl in H1, H2. rewrite Z.pow_add_r by lia. rewrite Pos2Z.inj_mul. nia. }
  apply binary_round_aux_below; unfold emax, prec in *; lia.
Qed.

Lemma fmul_signed (x y : float) (sx sy : bool) :
  signed sx x -> signed sy y -> signed (xorb sx sy) (fmul x y).
Proof.
  intros Hx Hy. unfold fmul, SFmul.
  destruct x as [?|?| |s1 mx ex]; destruct y as [?|?| |s2 my ey]; try exact I.
  simpl in Hx, Hy. subst. apply binary_round_aux_signed.
Qed.

(** [int] succeeds below the overflow threshold, on the truncated value. *)
Lemma int_below (x : float) (K : Z) :
  below K x -> int x = Ok (trunc x).
Proof. destruct x; simpl; try contradiction; reflexivity. Qed.

Lemma trunc_below (x : float) (K : Z) :
  below K x -> 0 <= K -> Z.abs (trunc x) < 2 ^ K.
Proof.
  intros Hx HK.
  assert (0 < 2 ^ K) as HK2 by (apply Z.pow_pos_nonneg; lia).
  destruct x as [s|s| |s m e]; simpl; try contradiction; try lia.
  simpl in Hx.
  pose proof (Zdigits2_ub (Z.pos m) ltac:(lia)) as Hub. simpl in Hub.
  set (d := Z.pos (digits2_pos m)) in *.
  assert (0 <= match e with
               | 0 => Z.pos m
               | Z.pos p => Z.pos m * Z.pow_pos 2 p
               | Z.neg p => Z.pos m / Z.pow_pos 2 p
               end < 2 ^ K) as Ha; [|destruct s; lia].
  destruct e as [|p|p].
  - split; [lia|]. apply Z.lt_le_trans with (2 ^ d); [lia|].
    apply Z.pow_le_mono_r; lia.
  - rewrite Z.pow_pos_fold.
    assert (0 < 2 ^ Z.pos p) by (apply Z.pow_pos_nonneg; lia).
    split; [nia|].
    apply Z.lt_le_trans with (2 ^ (d + Z.pos p)).
    + rewrite Z.pow_add_r by lia. nia.
    + apply Z.pow_le_mono_r; lia.
  - rewrite Z.pow_pos_fold.
    assert (0 < 2 ^ Z.pos p) by (apply Z.pow_pos_nonneg; lia).
    split; [apply Z.div_pos; lia|].
    apply Z.div_lt_upper_bound; [lia|].
    apply Z.lt_le_trans with (2 ^ d); [lia|].
    rewrite <- Z.pow_add_r by lia.
    apply Z.pow_le_mono_r; lia.
Qed.

Lemma trunc_nonneg (x : float) : signed false x -> 0 <= trunc x.
Proof.
  destruct x as [s|s| |s m e]; simpl; try lia. intros ->.
  destruct e as [|p|p]; try lia.
  rewrite Z.pow_pos_fold.
  assert (0 < 2 ^ Z.pos p) by (apply Z.pow_pos_nonneg; lia).
  apply Z.div_pos; lia.
Qed.

End FloatFacts.

(** ** A tenth of the target height *)

Lemma tenth_agrees_checked :
  forallb tenth_agrees (map Z.of_nat (seq 0 (Z.to_nat 10001))) = true.
Proof. vm_compute. reflexivity. Qed.

Lemma tenth_agrees_upto (th : Z) : 0 <= th <= 10000 -> tenth_agrees th = true.
Proof.
  intros Hth. pose proof tenth_agrees_checked as H.
  rewrite forallb_forall in H. apply H.
  apply in_map_iff. exists (Z.to_nat th). split; [lia|].
  apply in_seq. lia.
Qed.

(** ** The paste loop *)

Lemma paste_all_size (images : list PIL.Picture) :
  forall c x, PIL.size (paste_all c x images) = PIL.size c.
Proof.
  induction images as [|img images IH]; intros c x; simpl; [reflexivity|].
  now rewrite IH.
Qed.

Lemma paste_all_canvas (images : list PIL.Picture) :
  forall c x, canvas (paste_all c x images) = canvas c.
Proof.
  induction images as [|img images IH]; intros c x; simpl; [reflexivity|].
  now rewrite IH.
Qed.

Lemma paste_all_length (images : list PIL.Picture) :
  forall c x, length (pastes (paste_all c x images)) = (length (pastes c) + length images)%nat.
Proof.
  induction images as [|img images IH]; intros c x; simpl; [lia|].
  rewrite IH. simpl. rewrite length_app. simpl. lia.
Qed.

Lemma paste_all_lookup (images : list PIL.Picture) :
  forall c x k img,
    images !! k = Some img ->
    pastes (paste_all c x images) !! (length (pastes c) + k)%nat =
      Some (img, x + sum (map PIL.width (take k images)), 0).
Proof.
  induction images as [|i0 images IH]; intros c x k img Hk; [discriminate|].
  simpl. destruct k as [|k].
  - simpl in Hk. injection Hk as ->.
    assert (pastes (PIL.Paste c img x 0) !! (length (pastes c) + 0)%nat
            = Some (img, x, 0)) as Hhere.
    { simpl. rewrite lookup_app_r by lia.
      replace (length (pastes c) + 0 - length (pastes c))%nat with 0%nat by lia.
      reflexivity. }
    simpl. rewrite Z.add_0_r.
    clear IH. revert Hhere.
    generalize (PIL.Paste c img x 0) (x + PIL.width img) (length (pastes c) + 0)%nat.
    induction images as [|j images IH]; intros c' x' n Hn; simpl; [exact Hn|].
    apply IH. simpl. rewrite lookup_app_l; [exact Hn|].
    apply lookup_lt_Some in Hn. exact Hn.
  - simpl in Hk. specialize (IH (PIL.Paste c i0 x 0) (x + PIL.width i0) k img Hk).
    simpl in IH. rewrite length_app in IH. simpl in IH.
    replace (length (pastes c) + S k)%nat with (length (pastes c) + 1 + k)%nat by lia.
    rewrite IH. simpl. f_equal. f_equal. f_equal. lia.
Qed.

Lemma combine_size (images : list PIL.Picture) (th : Z) :
  PIL.size (combine images th) = (sum (map PIL.width images), th).
Proof. unfold combine. now rewrite paste_all_size. Qed.

Lemma combine_canvas (images : list PIL.Picture) (th : Z) :
  canvas (combine images th) = PIL.New "RGB" (sum (map PIL.width images)) th "white".
Proof. unfold combine. now rewrite paste_all_canvas. Qed.

Lemma combine_length (images : list PIL.Picture) (th : Z) :
  length (pastes (combine images th)) = length images.
Proof. unfold combine. now rewrite paste_all_length. Qed.

Lemma combine_lookup (images : list PIL.Picture) (th : Z) (k : nat) (img : PIL.Picture) :
  images !! k = Some img ->
  pastes (combine images th) !! k = Some (img, sum (map PIL.width (take k images)), 0).
Proof.
  intros Hk. unfold combine.
  pose proof (paste_all_lookup images
                (PIL.New "RGB" (sum (map PIL.width images)) th "white") 0 k img Hk) as H.
  simpl in H. exact H.
Qed.

Lemma pastes_combine_prefix (a b : list PIL.Picture) (th : Z) :
  take (length a) (pastes (combine (a ++ b) th)) = pastes (combine a th).
Proof.
  apply list_eq. intros k.
  destruct (decide (k < length a)%nat) as [Hlt|Hge].
  - rewrite lookup_take_lt by lia.
    destruct (lookup_lt_is_Some_2 a k Hlt) as [img Himg].
    rewrite (combine_lookup a th k img Himg).
    rewrite (combine_lookup (a ++ b) th k img)
      by (rewrite lookup_app_l by lia; exact Himg).
    rewrite take_app_le by lia. reflexivity.
  - rewrite lookup_take_ge by lia. symmetry.
    apply lookup_ge_None. rewrite combine_length. lia.
Qed.

(** ** Columns of the composite *)

Lemma sum_app (l1 l2 : list Z) : sum (l1 ++ l2) = sum l1 + sum l2.
Proof. induction l1 as [|a l1 IH]; simpl; [reflexivity|]. unfold sum in *. simpl. lia. Qed.

Lemma sum_nonneg (l : list Z) : Forall (fun w => 0 <= w) l -> 0 <= sum l.
Proof. induction 1; unfold sum in *; simpl; lia. Qed.

(** With widths that are not negative, every column of the row lies in the
    slot of exactly one image. *)
Lemma column_in_one_slot (ws : list Z) :
  Forall (fun w => 0 <= w) ws ->
  forall col, 0 <= col < sum ws ->
  exists k w, ws !! k = Some w
    /\ sum (take k ws) <= col < sum (take k ws) + w
    /\ forall k' w', ws !! k' = Some w' ->
         sum (take k' ws) <= col < sum (take k' ws) + w' -> k' = k.
Proof.
  induction 1 as [|w0 ws Hw0 Hws IH]; intros col Hcol.
  - unfold sum in Hcol. simpl in Hcol. lia.
  - change (sum (w0 :: ws)) with (w0 + sum ws) in Hcol.
    destruct (Z_lt_dec col w0) as [Hlt|Hge].
    + exists 0%nat, w0. split; [reflexivity|]. split; [unfold sum; simpl; lia|].
      intros [|k'] w' Hk' Hin; [reflexivity|exfalso].
      change (sum (take (S k') (w0 :: ws))) with (w0 + sum (take k' ws)) in Hin.
      assert (0 <= sum (take k' ws)); [|lia].
      apply sum_nonneg, Forall_take, Hws.
    + destruct (IH (col - w0) ltac:(lia)) as (k & w & Hk & Hin & Huniq).
      exists (S k), w. split; [exact Hk|].
      change (sum (take (S k) (w0 :: ws))) with (w0 + sum (take k ws)).
      split; [lia|].
      intros [|k'] w' Hk' Hin'.
      * simpl in Hk'. injection Hk' as <-. unfold sum in Hin'. simpl in Hin'. lia.
      * change (sum (take (S k') (w0 :: ws))) with (w0 + sum (take k' ws)) in Hin'.
        f_equal. apply (Huniq k' w' Hk'). lia.
Qed.

Lemma combine_columns (images : list PIL.Picture) (th : Z) :
  Forall (fun p => 0 <= PIL.width p) images ->
  forall col, 0 <= col < PIL.width (combine images th) ->
  exists k p x,
    pastes (combine images th) !! k = Some (p, x, 0)
    /\ x <= col < x + PIL.width p
    /\ forall k' p' x' y',
         pastes (combine images th) !! k' = Some (p', x', y') ->
         x' <= col < x' + PIL.width p' -> k' = k.
Proof.
  intros Hpos col Hcol.
  unfold PIL.width in Hcol at 1. rewrite combine_size in Hcol. simpl in Hcol.
  assert (Forall (fun w => 0 <= w) (map PIL.width images)) as Hws
    by (apply Forall_map; exact Hpos).
  destruct (column_in_one_slot _ Hws col Hcol) as (k & w & Hk & Hin & Huniq).
  change (map PIL.width images) with (PIL.width <$> images) in Hk.
  rewrite list_lookup_fmap in Hk.
  destruct (images !! k) as [p|] eqn:Hp; [|discriminate]. injection Hk as <-.
  rewrite firstn_map in Hin.
  exists k, p, (sum (map PIL.width (take k images))).
  split; [now apply combine_lookup|]. split; [exact Hin|].
  intros k' p' x' y' Hk' Hin'.
  assert (k' < length images)%nat as Hlt
    by (apply lookup_lt_Some in Hk'; now rewrite combine_length in Hk').
  destruct (lookup_lt_is_Some_2 images k' Hlt) as [q Hq].
  rewrite (combine_lookup images th k' q Hq) in Hk'. injection Hk' as <- <- <-.
  apply (Huniq k' (PIL.width q)).
  - change (map PIL.width images) with (PIL.width <$> images).
    rewrite list_lookup_fmap, Hq. reflexivity.
  - now rewrite firstn_map.
Qed.

(** ** The label rule *)

Lemma to_letter_Label (i : Z) : to_letter i = Label i.
Proof.
  unfold to_letter, Label. destruct ((1 <=? i) && (i <=? 5)); [|reflexivity].
  f_equal. change (Z.of_N (N_of_ascii "a")) with 97. lia.
Qed.

Example Label_a_to_e :
  map Label [1; 2; 3; 4; 5] = ["a"; "b"; "c"; "d"; "e"]%string.
Proof. reflexivity. Qed.

Example Label_beyond_e : map Label [6; 10; 26] = ["6"; "10"; "26"]%string.
Proof. reflexivity. Qed.

(** [str] writes the decimal numeral: reading it back gives the integer. *)
Lemma str_is_decimal (i : Z) : int_of_decimal (Py.str i) = Some i.
Proof.
  unfold int_of_decimal, Py.str. rewrite NilZero.isi.
  - now rewrite DecimalZ.of_to.
  - destruct i; simpl; try discriminate.
    intros [= H]. now apply DecimalPos.Unsigned.to_uint_nonnil in H.
  - destruct i; simpl; try discriminate.
    intros [= H]. now apply DecimalPos.Unsigned.to_uint_nonnil in H.
Qed.

(** ** Running the program *)

Section Run.

Variable identify : UploadedFile -> option (Z * Z).
Variable loads : UploadedFile -> bool.
Variable fonts : gset string.

Import Py FloatFacts.

Ltac run := unfold bind, ret, lift, raise, try_except; simpl.

Lemma max_dim_eq : max_dim = 2 ^ 31.
Proof. reflexivity. Qed.

Lemma after_0 (s : state) : after 0 s = s.
Proof. destruct s; reflexivity. Qed.

Lemma after_after (n m : nat) (s : state) : after n (after m s) = after (n + m) s.
Proof. unfold after. simpl. f_equal. lia. Qed.

Lemma height_ok_range (th : Z) : height_ok th = true -> 10 <= th <= 10000.
Proof. unfold height_ok. rewrite andb_true_iff, !Z.leb_le. tauto. Qed.

Lemma int_inv (x : float) (v : Z) : int x = Ok v -> v = trunc x.
Proof. destruct x; simpl; intros [=]; auto. Qed.

(** *** The font *)

(** [target_height * 0.1] and its integer part. *)
Lemma tenth_ok (th : Z) :
  0 < th < max_dim ->
  exists x, int_mul_float th lit_0_1 = Ok x /\ int x = Ok (trunc x)
            /\ 0 <= trunc x < 2 ^ 33.
Proof.
  rewrite max_dim_eq. intros Hth. unfold int_mul_float.
  destruct (float_of_int_below th 31 ltac:(lia) ltac:(unfold emax; lia))
    as (x & -> & Hx & Sx).
  assert (below 0 lit_0_1) as H01 by (simpl; lia).
  pose proof (fmul_below x lit_0_1 32 0 Hx H01 ltac:(unfold emax, prec; lia)) as Hm.
  pose proof (fmul_signed x lit_0_1 _ false Sx eq_refl) as Sm.
  replace (th <? 0) with false in Sm by (symmetry; apply Z.ltb_ge; lia).
  eexists. split; [reflexivity|]. split; [eapply int_below; exact Hm|].
  pose proof (trunc_below _ _ Hm ltac:(lia)). pose proof (trunc_nonneg _ Sm).
  simpl in *. lia.
Qed.

Lemma tenth_value (th : Z) :
  height_ok th = true ->
  exists x, int_mul_float th lit_0_1 = Ok x /\ int x = Ok (th / 10)
            /\ trunc x = th / 10 /\ 1 <= th / 10 <= 1000.
Proof.
  intros Hok. apply height_ok_range in Hok.
  destruct (tenth_ok th ltac:(rewrite max_dim_eq; lia)) as (x & Hx & Hi & _).
  pose proof (tenth_agrees_upto th ltac:(lia)) as Ht.
  unfold tenth_agrees in Ht. rewrite Hx in Ht.
  assert (trunc x = th / 10) as Htr by lia.
  exists x. rewrite <- Htr at 1. repeat (split; [assumption|]).
  split; [apply Z.div_le_lower_bound; lia|apply Z.div_le_upper_bound; lia].
Qed.

Lemma font_setup_eq (th : Z) (s : state) :
  font_setup fonts th s =
    match int_mul_float th lit_0_1 with
    | Raise e => (Raise e, s)
    | Ok x =>
        match int x with
        | Raise e => (Raise e, s)
        | Ok font_size =>
            if font_size <=? 0 then (Raise ValueError, s)
            else if decide ("arial.ttf" ∈ fonts) then
              (Ok ({| PIL.font_id := next_id s;
                      PIL.face := PIL.FreeTypeFont "arial.ttf" font_size |}, font_size),
               after 1 s)
            else
              (Ok ({| PIL.font_id := next_id s; PIL.face := PIL.DefaultFont |}, 18),
               after 1 (warned s))
        end
    end.
Proof.
  unfold font_setup, truetype. run.
  destruct (int_mul_float th lit_0_1) as [x|e]; [|reflexivity].
  destruct (int x) as [font_size|e]; [|reflexivity].
  destruct (font_size <=? 0); [reflexivity|].
  destruct (decide ("arial.ttf" ∈ fonts)); reflexivity.
Qed.

Lemma font_setup_run (th : Z) (s : state) :
  height_ok th = true ->
  font_setup fonts th s =
    if decide ("arial.ttf" ∈ fonts) then
      (Ok ({| PIL.font_id := next_id s;
              PIL.face := PIL.FreeTypeFont "arial.ttf" (th / 10) |}, th / 10),
       after 1 s)
    else
      (Ok ({| PIL.font_id := next_id s; PIL.face := PIL.DefaultFont |}, 18),
       after 1 (warned s)).
Proof.
  intros Hok. destruct (tenth_value th Hok) as (x & Hx & Hi & _ & Hr).
  rewrite font_setup_eq, Hx, Hi.
  replace (th / 10 <=? 0) with false by (symmetry; apply Z.leb_gt; lia).
  reflexivity.
Qed.

Lemma font_setup_below_10 (th : Z) (s : state) :
  0 <= th < 10 -> font_setup fonts th s = (Raise ValueError, s).
Proof.
  intros Hth. rewrite font_setup_eq.
  assert (th = 0 \/ th = 1 \/ th = 2 \/ th = 3 \/ th = 4 \/ th = 5 \/ th = 6
          \/ th = 7 \/ th = 8 \/ th = 9) as E by lia.
  repeat (destruct E as [->|E]; [reflexivity|]). subst. reflexivity.
Qed.

(** *** One image *)

Lemma text_y_offset_eq (font : PIL.font) (font_size : Z) (s : state) :
  (PIL.font_id font < next_id s)%nat ->
  text_y_offset font font_size s =
    match int_mul_float font_size lit_1_5 with
    | Ok x => (Ok (Float x), after 1 s)
    | Raise e => (Raise e, after 1 s)
    end.
Proof.
  intros Hid. unfold text_y_offset, load_default, alloc_font, PIL.font_ne. run.
  replace (PIL.font_id font =? next_id s)%nat with false
    by (symmetry; apply Nat.eqb_neq; lia).
  simpl. destruct (int_mul_float font_size lit_1_5); reflexivity.
Qed.

Lemma new_width_run (w h th : Z) :
  valid_size (w, h) = true -> 0 < th < max_dim ->
  exists ratio x, truediv th h = Ok ratio /\ int_mul_float w ratio = Ok x
    /\ new_width w h th = Ok (trunc x) /\ 0 <= trunc x.
Proof.
  unfold valid_size. rewrite max_dim_eq. simpl. intros Hv Hth.
  assert (0 < w < 2 ^ 31 /\ 0 < h < 2 ^ 31) as [Hw Hh] by lia.
  destruct (truediv_below th h 31 ltac:(lia) ltac:(lia) ltac:(unfold emax; lia))
    as (ratio & Hr & Br & Sr).
  replace (th <? 0) with false in Sr by (symmetry; apply Z.ltb_ge; lia).
  replace (h <? 0) with false in Sr by (symmetry; apply Z.ltb_ge; lia).
  destruct (float_of_int_below w 31 ltac:(lia) ltac:(unfold emax; lia))
    as (fw & Hfw & Bw & Sw).
  replace (w <? 0) with false in Sw by (symmetry; apply Z.ltb_ge; lia).
  exists ratio, (fmul fw ratio). unfold new_width, int_mul_float.
  rewrite Hr, Hfw.
  pose proof (fmul_below fw ratio 32 32 Bw Br ltac:(unfold emax, prec; lia)) as Bm.
  pose proof (fmul_signed fw ratio _ _ Sw Sr) as Sm.
  rewrite (int_below _ _ Bm).
  repeat split. now apply trunc_nonneg.
Qed.

Lemma new_width_inv (w h th nw : Z) :
  new_width w h th = Ok nw ->
  exists ratio x, truediv th h = Ok ratio /\ int_mul_float w ratio = Ok x
    /\ nw = trunc x.
Proof.
  unfold new_width. destruct (truediv th h) as [ratio|e] eqn:Hr; [|discriminate].
  destruct (int_mul_float w ratio) as [x|e] eqn:Hx; [|discriminate].
  intros H. apply int_inv in H. exists ratio, x. auto.
Qed.

Lemma label_position_ok (th font_size : Z) :
  0 < th < max_dim -> 0 <= font_size < 2 ^ 33 ->
  exists x fth, int_mul_float font_size lit_1_5 = Ok x /\ float_of_int th = Ok fth
    /\ label_position th font_size = Ok (Float (fsub fth x)).
Proof.
  rewrite max_dim_eq. intros Hth Hfs. unfold label_position, int_mul_float, int_sub.
  destruct (float_of_int_below font_size 33 ltac:(lia) ltac:(unfold emax; lia))
    as (x & Hx & _).
  destruct (float_of_int_below th 31 ltac:(lia) ltac:(unfold emax; lia))
    as (fth & Hfth & _).
  rewrite Hx, Hfth. eauto.
Qed.

(** What one turn of the loop does, step by step. *)
Lemma label_image_eq (i : Z) (f : UploadedFile) (th : Z) (font : PIL.font)
    (font_size : Z) (s : state) :
  (PIL.font_id font < next_id s)%nat ->
  label_image identify loads i f th font font_size s =
    match identify f with
    | None => (Raise (UnidentifiedImageError f), s)
    | Some (w, h) =>
        if PIL.bomb w h then (Raise DecompressionBombError, s)
        else if loads f then
          match new_width w h th with
          | Raise e => (Raise e, s)
          | Ok nw =>
              if negb (PIL.c_int nw && PIL.c_int th) then (Raise OverflowError, s)
              else if (nw <? 1) || (th <? 1) then (Raise ValueError, s)
              else
                match label_position th font_size with
                | Ok y =>
                    (Ok (PIL.Text (PIL.Resized (PIL.Opened f w h) nw th)
                                  (Int 10) y (to_letter (i + 1)) "black" (PIL.face font)),
                     after 1 s)
                | Raise e => (Raise e, after 1 s)
                end
          end
        else (Raise IOError, s)
    end.
Proof.
  intros Hid. unfold label_image, Image_open.
  destruct (identify f) as [[w h]|]; [|reflexivity].
  destruct (PIL.bomb w h); [reflexivity|].
  destruct (loads f); [|reflexivity].
  run. destruct (new_width w h th) as [nw|e]; [|reflexivity].
  unfold resize. run.
  destruct (negb (PIL.c_int nw && PIL.c_int th)); [reflexivity|].
  destruct ((nw <? 1) || (th <? 1)); [reflexivity|].
  pose proof (text_y_offset_eq font font_size s Hid) as Hoff.
  unfold bind in Hoff |- *. rewrite Hoff. unfold label_position.
  destruct (int_mul_float font_size lit_1_5) as [x|e]; [|reflexivity].
  destruct (int_sub th (Float x)); reflexivity.
Qed.

(** A file that does not decode, and a file resized to an empty image, stop
    the turn before any font object is made. *)
Lemma label_image_undecodable (i : Z) (f : UploadedFile) (th : Z) (font : PIL.font)
    (font_size : Z) (s : state) :
  undecodable identify loads f = true ->
  label_image identify loads i f th font font_size s =
    (Raise (decode_error identify f), s).
Proof.
  unfold undecodable, decode_error, label_image, Image_open.
  destruct (identify f) as [[w h]|]; [|reflexivity].
  destruct (PIL.bomb w h); [reflexivity|].
  destruct (loads f); [discriminate|reflexivity].
Qed.

Lemma label_image_empty (i : Z) (f : UploadedFile) (th : Z) (font : PIL.font)
    (font_size : Z) (s : state) (w h nw : Z) :
  identify f = Some (w, h) -> PIL.bomb w h = false -> loads f = true ->
  new_width w h th = Ok nw -> 0 <= nw < 1 -> 0 < th < max_dim ->
  label_image identify loads i f th font font_size s = (Raise ValueError, s).
Proof.
  rewrite max_dim_eq. intros Hf Hb Hl Hnw Hz Hth. unfold label_image, Image_open.
  rewrite Hf, Hb, Hl. run. rewrite Hnw. unfold resize, PIL.c_int. run.
  replace (- 2 ^ 31 <=? nw) with true by (symmetry; apply Z.leb_le; lia).
  replace (nw <? 2 ^ 31) with true by (symmetry; apply Z.ltb_lt; lia).
  replace (- 2 ^ 31 <=? th) with true by (symmetry; apply Z.leb_le; lia).
  replace (th <? 2 ^ 31) with true by (symmetry; apply Z.ltb_lt; lia).
  replace (nw <? 1) with true by (symmetry; apply Z.ltb_lt; lia).
  reflexivity.
Qed.

(** *** The loop *)

(** The files of a [Labelled] row go through the loop. *)
Lemma label_images_app (th : Z) (font : PIL.font) (font_size : Z) (y : num)
    (files : list UploadedFile) (images : list PIL.Picture) (i : Z) :
  Labelled identify loads th (PIL.face font) y i files images ->
  label_position th font_size = Ok y -> 1 <= th < 2 ^ 31 ->
  forall (rest : list UploadedFile) (acc : list PIL.Picture) (s : state),
    (PIL.font_id font < next_id s)%nat ->
    label_images identify loads i (files ++ rest) th font font_size acc s =
    label_images identify loads (i + Z.of_nat (length files)) rest th font font_size
      (acc ++ images) (after (length files) s).
Proof.
  intros Hlab Hy Hth.
  induction Hlab as [i|i f files w h nw images Hf Hb Hl Hnw Hrange _ IH];
    intros rest acc s Hid.
  - simpl. rewrite Z.add_0_r, app_nil_r, after_0. reflexivity.
  - simpl. unfold bind at 1. rewrite label_image_eq by exact Hid.
    rewrite Hf, Hb, Hl, Hnw. unfold PIL.c_int.
    replace (- 2 ^ 31 <=? nw) with true by (symmetry; apply Z.leb_le; lia).
    replace (nw <? 2 ^ 31) with true by (symmetry; apply Z.ltb_lt; lia).
    replace (- 2 ^ 31 <=? th) with true by (symmetry; apply Z.leb_le; lia).
    replace (th <? 2 ^ 31) with true by (symmetry; apply Z.ltb_lt; lia).
    replace (nw <? 1) with false by (symmetry; apply Z.ltb_ge; lia).
    replace (th <? 1) with false by (symmetry; apply Z.ltb_ge; lia).
    simpl. rewrite Hy.
    rewrite IH by (simpl; lia). rewrite after_after, <- app_assoc. simpl.
    f_equal; [lia|]. f_equal. lia.
Qed.

Lemma label_images_run (th : Z) (font : PIL.font) (font_size : Z) (y : num)
    (files : list UploadedFile) (images : list PIL.Picture) (i : Z) :
  Labelled identify loads th (PIL.face font) y i files images ->
  label_position th font_size = Ok y -> 1 <= th < 2 ^ 31 ->
  forall (acc : list PIL.Picture) (s : state),
    (PIL.font_id font < next_id s)%nat ->
    label_images identify loads i files th font font_size acc s =
      (Ok (acc ++ images), after (length files) s).
Proof.
  intros Hlab Hy Hth acc s Hid.
  pose proof (label_images_app th font font_size y files images i Hlab Hy Hth [] acc s Hid)
    as H.
  rewrite app_nil_r in H. exact H.
Qed.

(** What the loop did when it returns. *)
Lemma label_images_inv (th : Z) (font : PIL.font) (font_size : Z)
    (files : list UploadedFile) :
  forall (i : Z) (acc : list PIL.Picture) (s s' : state) (result : list PIL.Picture),
    (PIL.font_id font < next_id s)%nat ->
    label_images identify loads i files th font font_size acc s = (Ok result, s') ->
    exists images,
      result = acc ++ images
      /\ s' = after (length files) s
      /\ (forall y, label_position th font_size = Ok y ->
            Labelled identify loads th (PIL.face font) y i files images)
      /\ (files <> [] ->
            (exists y, label_position th font_size = Ok y) /\ 1 <= th < 2 ^ 31).
Proof.
  induction files as [|f files IH]; intros i acc s s' result Hid Hrun.
  - simpl in Hrun. injection Hrun as <- <-. exists [].
    rewrite app_nil_r, after_0. repeat split; try congruence. intros; constructor.
  - simpl in Hrun. unfold bind in Hrun. rewrite label_image_eq in Hrun by exact Hid.
    destruct (identify f) as [[w h]|] eqn:Hf; [|discriminate].
    destruct (PIL.bomb w h) eqn:Hb; [discriminate|].
    destruct (loads f) eqn:Hl; [|discriminate].
    destruct (new_width w h th) as [nw|e] eqn:Hnw; [|discriminate].
    destruct (negb (PIL.c_int nw && PIL.c_int th)) eqn:Hc; [discriminate|].
    destruct ((nw <? 1) || (th <? 1)) eqn:Hz; [discriminate|].
    destruct (label_position th font_size) as [y0|e] eqn:Hy; [|discriminate].
    apply IH in Hrun as (images & -> & -> & Hlab & _); [|simpl; lia].
    assert (1 <= nw < 2 ^ 31 /\ 1 <= th < 2 ^ 31) as [Hnw' Hth'].
    { unfold PIL.c_int in Hc. apply negb_false_iff in Hc.
      apply orb_false_iff in Hz as [Hz1 Hz2]. lia. }
    eexists. split; [rewrite <- app_assoc; reflexivity|].
    split; [rewrite after_after; f_equal; simpl; lia|].
    split.
    + intros y Hy'. injection Hy' as <-. econstructor; eauto.
    + intros _. split; [eauto|exact Hth'].
Qed.

(** A row in the domain of the theorems is [Labelled]. *)
Lemma Labelled_of_row (th : Z) (face : PIL.font_face) (y : num)
    (files : list UploadedFile) :
  0 < th < max_dim ->
  forallb (resizes identify loads th) files = true ->
  forall i, exists images, Labelled identify loads th face y i files images.
Proof.
  intros Hth. induction files as [|f files IH]; intros Hall i.
  - exists []. constructor.
  - simpl in Hall. apply andb_true_iff in Hall as [Hf Hall].
    destruct (IH Hall (i + 1)) as (images & Hlab).
    unfold resizes, decodable, rescaled_width in Hf.
    destruct (identify f) as [[w h]|] eqn:Hident; [|discriminate].
    apply andb_true_iff in Hf as [Hf Hhi]. apply andb_true_iff in Hf as [Hd Hlo].
    apply andb_true_iff in Hd as [Hd Hl]. apply andb_true_iff in Hd as [Hv Hb].
    apply negb_true_iff in Hb. simpl in Hb.
    destruct (new_width_run w h th Hv Hth) as (ratio & x & _ & _ & Hnw & _).
    rewrite Hnw in Hlo, Hhi.
    eexists. econstructor; eauto. lia.
Qed.

(** *** What [Labelled] says of the images *)

Lemma Labelled_length th face y i files images :
  Labelled identify loads th face y i files images -> length images = length files.
Proof. induction 1; simpl; congruence. Qed.

Lemma Labelled_widths th face y i files images :
  Labelled identify loads th face y i files images ->
  map PIL.width images = map (rescaled_width identify th) files.
Proof.
  induction 1 as [|i f files w h nw images Hf Hb Hl Hnw H0 _ IH]; simpl; [reflexivity|].
  rewrite IH. unfold rescaled_width at 2. now rewrite Hf, Hnw.
Qed.

Lemma Labelled_positive th face y i files images :
  Labelled identify loads th face y i files images ->
  Forall (fun p => 1 <= PIL.width p) images.
Proof. induction 1; [apply Forall_nil; exact I|apply Forall_cons; split; [unfold PIL.width; simpl; lia|assumption]]. Qed.

Lemma Labelled_lookup th face y i files images :
  Labelled identify loads th face y i files images ->
  forall (k : nat) (f : UploadedFile),
    files !! k = Some f ->
    exists w h nw,
      identify f = Some (w, h) /\ PIL.bomb w h = false /\ loads f = true
      /\ new_width w h th = Ok nw
      /\ 1 <= nw < 2 ^ 31 /\
      images !! k =
        Some (PIL.Text (PIL.Resized (PIL.Opened f w h) nw th)
                       (Int 10) y (to_letter (i + Z.of_nat k + 1)) "black" face).
Proof.
  induction 1 as [|i f0 files w h nw images Hf Hb Hl Hnw H0 _ IH]; intros k f Hk;
    [discriminate|].
  destruct k as [|k]; simpl in Hk.
  - injection Hk as <-. exists w, h, nw. repeat (split; [assumption|]).
    simpl. now rewrite Z.add_0_r.
  - destruct (IH k f Hk) as (w' & h' & nw' & ? & ? & ? & ? & ? & Hl').
    exists w', h', nw'. repeat (split; [assumption|]).
    replace (i + Z.of_nat (S k) + 1) with (i + 1 + Z.of_nat k + 1) by lia.
    exact Hl'.
Qed.

Lemma take_map_width th face y i files images (k : nat) :
  Labelled identify loads th face y i files images ->
  map PIL.width (take k images) = map (rescaled_width identify th) (take k files).
Proof.
  intros H. revert k. induction H as [|i f files w h nw images Hf Hb Hl Hnw H0 _ IH];
    intros [|k]; simpl; try reflexivity.
  rewrite IH. unfold rescaled_width at 2. now rewrite Hf, Hnw.
Qed.

(** The images of the first files of a longer row. *)
Lemma Labelled_split th face y i files more images :
  Labelled identify loads th face y i (files ++ more) images ->
  exists a b, images = a ++ b /\ Labelled identify loads th face y i files a.
Proof.
  revert i images. induction files as [|f files IH]; intros i images H.
  - exists [], images. split; [reflexivity|constructor].
  - simpl in H. inversion H as [|i' f' files' w h nw images' Hf Hb Hl Hnw Hr Hrest]; subst.
    destruct (IH _ _ Hrest) as (a & b & -> & Ha).
    eexists (_ :: a), b. split; [reflexivity|]. econstructor; eauto.
Qed.

(** The label of the image pasted in slot [k]. *)
Lemma pasted_label th face y files images (k : nat) p off y' :
  Labelled identify loads th face y 0 files images ->
  pastes (combine images th) !! k = Some (p, off, y') ->
  label_of p = Some (to_letter (Z.of_nat k + 1))
  /\ (k < length files)%nat.
Proof.
  intros Hlab Hk.
  assert (k < length files)%nat as Hlt.
  { apply lookup_lt_Some in Hk. rewrite combine_length in Hk.
    now rewrite (Labelled_length _ _ _ _ _ _ Hlab) in Hk. }
  destruct (lookup_lt_is_Some_2 files k Hlt) as [f Hf].
  destruct (Labelled_lookup _ _ _ _ _ _ Hlab k f Hf)
    as (w & h & nw & _ & _ & _ & _ & _ & Himg).
  rewrite (combine_lookup _ th _ _ Himg) in Hk. injection Hk as <- _ _.
  split; [reflexivity|exact Hlt].
Qed.

(** *** The whole run *)

Lemma process_eq (files : list UploadedFile) (th : Z) (s : state) :
  files <> [] ->
  process_and_combine_images identify loads fonts files th s =
    match font_setup fonts th s with
    | (Raise e, s1) => (Raise e, s1)
    | (Ok (font, font_size), s1) =>
        match label_images identify loads 0 files th font font_size [] s1 with
        | (Raise e, s2) => (Raise e, s2)
        | (Ok images, s2) =>
            let total_width := sum (map PIL.width images) in
            if (total_width <? 0) || (th <? 0) then (Raise ValueError, s2)
            else if negb (PIL.c_int total_width && PIL.c_int th)
                 then (Raise OverflowError, s2)
            else (Ok (Some (PIL.PNG (combine images th))), s2)
        end
    end.
Proof.
  intros Hne. destruct files as [|f0 files0]; [congruence|].
  unfold process_and_combine_images. unfold bind at 1.
  destruct (font_setup fonts th s) as [[[font font_size]|e] s1]; [|reflexivity].
  unfold bind at 1.
  destruct (label_images identify loads 0 (f0 :: files0) th font font_size [] s1)
    as [[images|e] s2]; [|reflexivity].
  unfold Image_new, combine. run.
  destruct ((sum (map PIL.width images) <? 0) || (th <? 0)); [reflexivity|].
  destruct (negb (PIL.c_int (sum (map PIL.width images)) && PIL.c_int th)); reflexivity.
Qed.

(** The font the run draws with, when the font step returns. *)
Lemma font_setup_inv (th : Z) (s : state) (font : PIL.font) (font_size : Z) (s1 : state) :
  font_setup fonts th s = (Ok (font, font_size), s1) ->
  exists x,
    int_mul_float th lit_0_1 = Ok x /\ int x = Ok (trunc x) /\ 1 <= trunc x
    /\ font_size = resolved_size fonts (trunc x)
    /\ PIL.face font = resolved_face fonts (trunc x)
    /\ PIL.font_id font = next_id s
    /\ s1 = final_state fonts 0 s.
Proof.
  rewrite font_setup_eq. unfold resolved_size, resolved_face, final_state.
  destruct (int_mul_float th lit_0_1) as [x|e]; [|discriminate].
  destruct (int x) as [fs|e] eqn:Hi; [|discriminate].
  pose proof (int_inv _ _ Hi) as ->.
  destruct (trunc x <=? 0) eqn:Hpos; [discriminate|]. apply Z.leb_gt in Hpos.
  destruct (decide ("arial.ttf" ∈ fonts)); intros [= <- <- <-];
    exists x; repeat split; solve [assumption | lia].
Qed.

Lemma font_setup_fwd (th : Z) (s : state) (x : float) :
  int_mul_float th lit_0_1 = Ok x -> int x = Ok (trunc x) -> 1 <= trunc x ->
  exists font,
    font_setup fonts th s = (Ok (font, resolved_size fonts (trunc x)), final_state fonts 0 s)
    /\ PIL.face font = resolved_face fonts (trunc x)
    /\ PIL.font_id font = next_id s.
Proof.
  intros Hx Hi Hpos. rewrite font_setup_eq, Hx, Hi.
  replace (trunc x <=? 0) with false by (symmetry; apply Z.leb_gt; lia).
  unfold resolved_size, resolved_face, final_state.
  destruct (decide ("arial.ttf" ∈ fonts)); eexists; repeat split.
Qed.

Lemma final_state_next (n : nat) (s : state) :
  next_id (final_state fonts n s) = (S n + next_id s)%nat.
Proof. unfold final_state. destruct (decide _); reflexivity. Qed.

Lemma final_state_after (n m : nat) (s : state) :
  after n (final_state fonts m s) = final_state fonts (n + m) s.
Proof.
  unfold final_state. destruct (decide _); rewrite after_after; f_equal; lia.
Qed.

Lemma process_of_facts files th x y images (s : state) :
  run_facts identify loads fonts files th x y images ->
  process_and_combine_images identify loads fonts files th s =
    (Ok (Some (PIL.PNG (combine images th))), final_state fonts (length files) s).
Proof.
  intros (Hne & Hx & Hi & Hpos & Hy & Hth & Hlab & Htot).
  rewrite process_eq by exact Hne.
  destruct (font_setup_fwd th s x Hx Hi Hpos) as (font & -> & Hface & Hid).
  rewrite <- Hface in Hlab.
  rewrite (label_images_run th font _ y files images 0 Hlab Hy Hth [] (final_state fonts 0 s))
    by (rewrite final_state_next; lia).
  simpl app. cbv zeta.
  assert (0 <= sum (map PIL.width images)) as Hnn.
  { apply sum_nonneg. apply Forall_map.
    eapply Forall_impl; [eapply Labelled_positive; exact Hlab|]. simpl. intros; lia. }
  replace (sum (map PIL.width images) <? 0) with false by (symmetry; apply Z.ltb_ge; lia).
  replace (th <? 0) with false by (symmetry; apply Z.ltb_ge; lia).
  unfold PIL.c_int.
  replace (- 2 ^ 31 <=? sum (map PIL.width images)) with true
    by (symmetry; apply Z.leb_le; lia).
  replace (sum (map PIL.width images) <? 2 ^ 31) with true
    by (symmetry; apply Z.ltb_lt; lia).
  replace (- 2 ^ 31 <=? th) with true by (symmetry; apply Z.leb_le; lia).
  replace (th <? 2 ^ 31) with true by (symmetry; apply Z.ltb_lt; lia).
  simpl. rewrite final_state_after. repeat f_equal. lia.
Qed.

(** What a run that returns bytes did. *)
Lemma process_returns files th (s s' : state) (c : PIL.Picture) :
  process_and_combine_images identify loads fonts files th s
    = (Ok (Some (PIL.PNG c)), s') ->
  exists x y images,
    run_facts identify loads fonts files th x y images
    /\ c = combine images th
    /\ s' = final_state fonts (length files) s.
Proof.
  intros Hrun.
  assert (files <> []) as Hne by (intros ->; discriminate).
  rewrite process_eq in Hrun by exact Hne.
  destruct (font_setup fonts th s) as [[[font font_size]|e] s1] eqn:Hfont; [|discriminate].
  apply font_setup_inv in Hfont as (x & Hx & Hi & Hpos & -> & Hface & Hid & ->).
  destruct (label_images identify loads 0 files th font _ [] (final_state fonts 0 s))
    as [[images'|e] s2] eqn:Hloop; [|discriminate].
  apply label_images_inv in Hloop as (images & -> & -> & Hlab & Hpos');
    [|rewrite final_state_next; lia].
  simpl app in Hrun. cbv zeta in Hrun.
  destruct ((sum (map PIL.width images) <? 0) || (th <? 0)); [discriminate|].
  destruct (negb (PIL.c_int (sum (map PIL.width images)) && PIL.c_int th)) eqn:Hc;
    [discriminate|].
  injection Hrun as <- <-.
  destruct (Hpos' Hne) as [[y Hy] Hth].
  exists x, y, images. split; [|split; [reflexivity|]].
  - repeat (split; [first [assumption | lia]|]).
    split; [rewrite <- Hface; apply Hlab, Hy|].
    unfold PIL.c_int in Hc. apply negb_false_iff in Hc. lia.
  - rewrite final_state_after. f_equal. lia.
Qed.

(** Inside the domain the run returns. *)
Lemma facts_of_row files th :
  files <> [] -> height_ok th = true -> row_ok identify loads th files = true ->
  exists x y images, run_facts identify loads fonts files th x y images /\ trunc x = th / 10.
Proof.
  intros Hne Hok Hrow. pose proof (height_ok_range th Hok) as Hth.
  destruct (tenth_value th Hok) as (x & Hx & Hi & Htr & Hr).
  assert (0 < th < max_dim) as Hth' by (rewrite max_dim_eq; lia).
  assert (0 <= resolved_size fonts (trunc x) < 2 ^ 33) as Hrs
    by (unfold resolved_size; destruct (decide _); lia).
  destruct (label_position_ok th _ Hth' Hrs) as (x15 & fth & _ & _ & Hy).
  unfold row_ok in Hrow. apply andb_true_iff in Hrow as [Hall Hpix].
  apply Z.leb_le in Hpix.
  destruct (Labelled_of_row th (resolved_face fonts (trunc x)) (Float (fsub fth x15))
              files Hth' Hall 0) as (images & Hlab).
  exists x, (Float (fsub fth x15)), images. split; [|exact Htr].
  unfold run_facts. rewrite <- Htr in Hi.
  repeat (split; [first [assumption | lia]|]).
  rewrite (Labelled_widths _ _ _ _ _ _ Hlab).
  unfold PIL.MAX_IMAGE_PIXELS in Hpix. nia.
Qed.

Lemma process_run files th (s : state) :
  files <> [] -> height_ok th = true -> row_ok identify loads th files = true ->
  exists y images,
    label_position th (resolved_size fonts (th / 10)) = Ok y
    /\ Labelled identify loads th (resolved_face fonts (th / 10)) y 0 files images
    /\ process_and_combine_images identify loads fonts files th s =
         (Ok (Some (PIL.PNG (combine images th))), final_state fonts (length files) s).
Proof.
  intros Hne Hok Hrow.
  destruct (facts_of_row files th Hne Hok Hrow) as (x & y & images & Hfacts & Htr).
  exists y, images. rewrite (process_of_facts _ _ _ _ _ s Hfacts).
  destruct Hfacts as (_ & _ & _ & _ & Hy & _ & Hlab & _). rewrite Htr in Hy, Hlab.
  auto.
Qed.

(** A turn that fails before the label is placed stops the run there. *)
Lemma process_stops (before : list UploadedFile) (f : UploadedFile)
    (rest : list UploadedFile) (th : Z) (e : exn) (s : state) :
  height_ok th = true ->
  forallb (resizes identify loads th) before = true ->
  (forall i font font_size s1,
     label_image identify loads i f th font font_size s1 = (Raise e, s1)) ->
  process_and_combine_images identify loads fonts (before ++ f :: rest) th s =
    (Raise e, final_state fonts (length before) s).
Proof.
  intros Hok Hall Hfail. pose proof (height_ok_range th Hok) as Hth.
  destruct (tenth_value th Hok) as (x & Hx & Hi & Htr & Hr).
  assert (0 < th < max_dim) as Hth' by (rewrite max_dim_eq; lia).
  assert (0 <= resolved_size fonts (trunc x) < 2 ^ 33) as Hrs
    by (unfold resolved_size; destruct (decide _); lia).
  destruct (label_position_ok th _ Hth' Hrs) as (x15 & fth & _ & _ & Hy).
  rewrite <- Htr in Hi.
  destruct (font_setup_fwd th s x Hx Hi ltac:(lia)) as (font & Hfont & Hface & Hid).
  destruct (Labelled_of_row th (PIL.face font) (Float (fsub fth x15))
              before Hth' Hall 0) as (images & Hlab).
  rewrite process_eq, Hfont by (destruct before; discriminate).
  rewrite (label_images_app th font _ _ before images 0 Hlab Hy ltac:(lia)
             (f :: rest) [] (final_state fonts 0 s))
    by (rewrite final_state_next; lia).
  simpl. unfold bind. rewrite Hfail. rewrite final_state_after. repeat f_equal. lia.
Qed.

(** *** The result does not depend on the state the run starts in *)

Lemma label_image_indep (i : Z) (f : UploadedFile) (th : Z) (font1 font2 : PIL.font)
    (font_size : Z) (s1 s2 : state) :
  PIL.face font1 = PIL.face font2 ->
  (PIL.font_id font1 < next_id s1)%nat -> (PIL.font_id font2 < next_id s2)%nat ->
  exists r k, label_image identify loads i f th font1 font_size s1 = (r, after k s1)
              /\ label_image identify loads i f th font2 font_size s2 = (r, after k s2).
Proof.
  intros Hface H1 H2. rewrite !label_image_eq by assumption. rewrite Hface.
  destruct (identify f) as [[w h]|];
    [|eexists; exists 0%nat; rewrite !after_0; split; reflexivity].
  destruct (PIL.bomb w h);
    [eexists; exists 0%nat; rewrite !after_0; split; reflexivity|].
  destruct (loads f);
    [|eexists; exists 0%nat; rewrite !after_0; split; reflexivity].
  destruct (new_width w h th) as [nw|e];
    [|eexists; exists 0%nat; rewrite !after_0; split; reflexivity].
  destruct (negb (PIL.c_int nw && PIL.c_int th));
    [eexists; exists 0%nat; rewrite !after_0; split; reflexivity|].
  destruct ((nw <? 1) || (th <? 1));
    [eexists; exists 0%nat; rewrite !after_0; split; reflexivity|].
  destruct (label_position th font_size); eexists; exists 1%nat; split; reflexivity.
Qed.

Lemma label_images_indep (th : Z) (font1 font2 : PIL.font) (font_size : Z)
    (files : list UploadedFile) :
  PIL.face font1 = PIL.face font2 ->
  forall (i : Z) (acc : list PIL.Picture) (s1 s2 : state),
    (PIL.font_id font1 < next_id s1)%nat -> (PIL.font_id font2 < next_id s2)%nat ->
    fst (label_images identify loads i files th font1 font_size acc s1) =
    fst (label_images identify loads i files th font2 font_size acc s2).
Proof.
  intros Hface. induction files as [|f files IH]; intros i acc s1 s2 H1 H2;
    [reflexivity|].
  simpl. unfold bind.
  destruct (label_image_indep i f th font1 font2 font_size s1 s2 Hface H1 H2)
    as (r & k & -> & ->).
  destruct r as [img|e]; [|reflexivity].
  apply IH; simpl; lia.
Qed.

Lemma process_indep (files : list UploadedFile) (th : Z) (s1 s2 : state) :
  fst (process_and_combine_images identify loads fonts files th s1) =
  fst (process_and_combine_images identify loads fonts files th s2).
Proof.
  destruct (decide (files = [])) as [->|Hne]; [reflexivity|].
  rewrite !process_eq by exact Hne. rewrite !font_setup_eq.
  destruct (int_mul_float th lit_0_1) as [x|e]; [|reflexivity].
  destruct (int x) as [font_size|e]; [|reflexivity].
  destruct (font_size <=? 0); [reflexivity|].
  destruct (decide ("arial.ttf" ∈ fonts)).
  - pose proof (label_images_indep th
      {| PIL.font_id := next_id s1; PIL.face := PIL.FreeTypeFont "arial.ttf" font_size |}
      {| PIL.font_id := next_id s2; PIL.face := PIL.FreeTypeFont "arial.ttf" font_size |}
      font_size files eq_refl 0 [] (after 1 s1) (after 1 s2)
      ltac:(simpl; lia) ltac:(simpl; lia)) as H.
    destruct (label_images identify loads 0 files th _ font_size [] (after 1 s1))
      as [r1 t1].
    destruct (label_images identify loads 0 files th _ font_size [] (after 1 s2))
      as [r2 t2].
    simpl in H. subst r2. destruct r1 as [images|err]; [|reflexivity]. cbv zeta.
    destruct ((sum (map PIL.width images) <? 0) || (th <? 0)); [reflexivity|].
    destruct (negb (PIL.c_int (sum (map PIL.width images)) && PIL.c_int th));
      reflexivity.
  - pose proof (label_images_indep th
      {| PIL.font_id := next_id s1; PIL.face := PIL.DefaultFont |}
      {| PIL.font_id := next_id s2; PIL.face := PIL.DefaultFont |}
      18 files eq_refl 0 [] (after 1 (warned s1)) (after 1 (warned s2))
      ltac:(simpl; lia) ltac:(simpl; lia)) as H.
    destruct (label_images identify loads 0 files th _ 18 [] (after 1 (warned s1)))
      as [r1 t1].
    destruct (label_images identify loads 0 files th _ 18 [] (after 1 (warned s2)))
      as [r2 t2].
    simpl in H. subst r2. destruct r1 as [images|err]; [|reflexivity]. cbv zeta.
    destruct ((sum (map PIL.width images) <? 0) || (th <? 0)); [reflexivity|].
    destruct (negb (PIL.c_int (sum (map PIL.width images)) && PIL.c_int th));
      reflexivity.
Qed.

End Run.
(** ** The size of the composite *)

(** C1, as the program has it. Whenever the run returns a composite, its
    height is the target height and its width is the sum of the widths the
    files were resized to, taken in input order; and the run does return one
    for a non-empty list inside the domain [height_ok], [row_ok]: a target
    height from 10 to 10000, files that decode and are resized to a width of
    at least 1, a composite within [MAX_IMAGE_PIXELS]. *)
Theorem composite_size (identify : UploadedFile -> option (Z * Z))
    (loads : UploadedFile -> bool) (fonts : gset string)
    (files : list UploadedFile) (th : Z) (s : state) :
  (forall c s',
     process_and_combine_images identify loads fonts files th s
       = (Py.Ok (Some (PIL.PNG c)), s') ->
     PIL.size c = (sum (map (rescaled_width identify th) files), th))
  /\ (files <> [] -> height_ok th = true -> row_ok identify loads th files = true ->
      composite_returned identify loads fonts files th s).
Proof.
  assert (forall c s',
     process_and_combine_images identify loads fonts files th s
       = (Py.Ok (Some (PIL.PNG c)), s') ->
     PIL.size c = (sum (map (rescaled_width identify th) files), th)) as Hsize.
  { intros c s' Hrun.
    destruct (process_returns _ _ _ _ _ _ _ _ Hrun) as (x & y & images & Hfacts & -> & _).
    destruct Hfacts as (_ & _ & _ & _ & _ & _ & Hlab & _).
    rewrite combine_size. now rewrite (Labelled_widths _ _ _ _ _ _ _ _ Hlab). }
  split; [exact Hsize|].
  intros Hne Hok Hrow.
  destruct (process_run identify loads fonts files th s Hne Hok Hrow)
    as (y & images & _ & _ & Hrun).
  eexists. eexists. split; [exact Hrun|]. eapply Hsize. exact Hrun.
Qed.

Lemma composite_size_witness :
  composite_returned Sample.identify Sample.loads Sample.with_arial
    [Sample.image_a; Sample.image_b] 400 Sample.start
  /\ PIL.size (Sample.row Sample.with_arial [Sample.image_a; Sample.image_b] 400)
     = (sum (map (rescaled_width Sample.identify 400) [Sample.image_a; Sample.image_b]),
        400).
Proof.
  destruct (composite_size Sample.identify Sample.loads Sample.with_arial
              [Sample.image_a; Sample.image_b] 400 Sample.start) as [Hsize Hret].
  split.
  - apply Hret; [discriminate|reflexivity|reflexivity].
  - apply (Hsize _ (Sample.ended Sample.with_arial [Sample.image_a; Sample.image_b] 400)).
    vm_compute. reflexivity.
Defined.

(** C1, as the specification words it, fails on a 1 x 1000 image at height
    400: the image decodes and the height is positive, but the width it
    would be resized to is 0, [resize] raises and no composite is
    returned. *)
Lemma no_composite_for_thin_image :
  ~ composite_returned Sample.identify Sample.loads Sample.with_arial
      [Sample.thin] 400 Sample.start.
Proof. intros (c & s' & Hrun & _). vm_compute in Hrun. discriminate. Qed.

Example thin_image_at_400 :
  decodable Sample.identify Sample.loads Sample.thin = true
  /\ process_and_combine_images Sample.identify Sample.loads Sample.with_arial
       [Sample.thin] 400 Sample.start
     = (Py.Raise Py.ValueError, {| next_id := 1; warnings := [] |}).
Proof. split; vm_compute; reflexivity. Qed.

(** A positive target height under 10 gives no composite either: the font
    size is 0 and [truetype] raises. *)
Example no_composite_at_height_9 :
  process_and_combine_images Sample.identify Sample.loads Sample.with_arial
    [Sample.image_a] 9 Sample.start
  = (Py.Raise Py.ValueError, Sample.start).
Proof. vm_compute. reflexivity. Qed.

(** The example of the specification: 100 x 200 and 300 x 100 at height 400. *)
Example composite_of_the_two_samples :
  map (rescaled_width Sample.identify 400) [Sample.image_a; Sample.image_b] = [200; 1200]
  /\ PIL.size (Sample.row Sample.with_arial [Sample.image_a; Sample.image_b] 400)
     = (1400, 400).
Proof. split; reflexivity. Qed.

(** ** The resized width *)

(** C2, as the program has it. In a run that returns a composite, every
    file is resized to the target height and to the width
    [int(width * (target_height / height))]: the float product of the width
    and the float ratio, cut to its integer part, not rounded to the nearest
    integer; that width is at least 1. *)
Theorem resized_to_truncated_width (identify : UploadedFile -> option (Z * Z))
    (loads : UploadedFile -> bool) (fonts : gset string)
    (files : list UploadedFile) (th : Z) (s s' : state) (c : PIL.Picture) :
  process_and_combine_images identify loads fonts files th s
    = (Py.Ok (Some (PIL.PNG c)), s') ->
  forall (k : nat) (f : UploadedFile),
    files !! k = Some f ->
    exists w h ratio x p off,
      identify f = Some (w, h)
      /\ Py.truediv th h = Py.Ok ratio
      /\ Py.int_mul_float w ratio = Py.Ok x
      /\ pastes c !! k = Some (p, off, 0)
      /\ unlabelled p = PIL.Resized (PIL.Opened f w h) (Py.trunc x) th
      /\ PIL.size p = (Py.trunc x, th)
      /\ 1 <= Py.trunc x.
Proof.
  intros Hrun k f Hk.
  destruct (process_returns _ _ _ _ _ _ _ _ Hrun) as (x0 & y & images & Hfacts & -> & _).
  destruct Hfacts as (_ & _ & _ & _ & _ & _ & Hlab & _).
  destruct (Labelled_lookup _ _ _ _ _ _ _ _ Hlab k f Hk)
    as (w & h & nw & Hf & _ & _ & Hnw & Hpos & Himg).
  destruct (new_width_inv _ _ _ _ Hnw) as (ratio & x & Hr & Hx & ->).
  exists w, h, ratio, x. eexists. eexists.
  split; [exact Hf|]. split; [exact Hr|]. split; [exact Hx|].
  split; [apply combine_lookup; exact Himg|].
  split; [reflexivity|]. split; [reflexivity|]. lia.
Qed.

Lemma resized_to_truncated_width_witness :
  exists w h ratio x p off,
    Sample.identify Sample.small = Some (w, h)
    /\ Py.truediv 400 h = Py.Ok ratio
    /\ Py.int_mul_float w ratio = Py.Ok x
    /\ pastes (Sample.row Sample.with_arial [Sample.small] 400) !! 0%nat
       = Some (p, off, 0)
    /\ unlabelled p = PIL.Resized (PIL.Opened Sample.small w h) (Py.trunc x) 400
    /\ PIL.size p = (Py.trunc x, 400)
    /\ 1 <= Py.trunc x.
Proof.
  apply (resized_to_truncated_width Sample.identify Sample.loads Sample.with_arial
           [Sample.small] 400 Sample.start
           (Sample.ended Sample.with_arial [Sample.small] 400)
           (Sample.row Sample.with_arial [Sample.small] 400)).
  - vm_compute. reflexivity.
  - reflexivity.
Defined.

(** C2, as the specification words it, fails on a 2 x 3 image at height 400:
    800 / 3 is nearest to 267, and the program resizes to width 266. *)
Lemma width_not_rounded_to_nearest : ~ width_rounds_to_nearest 2 3 400.
Proof. unfold width_rounds_to_nearest. vm_compute. discriminate. Qed.

Example new_width_2_3_at_400 :
  new_width 2 3 400 = Py.Ok 266 /\ nearest_int (2 * 400) 3 = 267
  /\ PIL.size (Sample.row Sample.with_arial [Sample.small] 400) = (266, 400).
Proof. repeat split; reflexivity. Qed.

(** A square image does not always come out square: the float product of
    97 and 400 / 97 is just under 400. *)
Example square_97_at_400 : new_width 97 97 400 = Py.Ok 399.
Proof. reflexivity. Qed.

(** ** The labels *)

(** C3. [to_letter] is the label rule of the specification: the letter
    [chr('a' + i - 1)] for [1 <= i <= 5] and the decimal numeral of [i]
    otherwise; and in a run that returns a composite the label drawn on the
    image at position [k + 1] is the one the rule gives for [k + 1]. *)
Theorem label_at_position (identify : UploadedFile -> option (Z * Z))
    (loads : UploadedFile -> bool) (fonts : gset string)
    (files : list UploadedFile) (th : Z) (s : state) :
  (forall i : Z, to_letter i = Label i)
  /\ (forall c s',
        process_and_combine_images identify loads fonts files th s
          = (Py.Ok (Some (PIL.PNG c)), s') ->
        forall (k : nat) (f : UploadedFile),
          files !! k = Some f ->
          exists p off,
            pastes c !! k = Some (p, off, 0)
            /\ label_of p = Some (Label (Z.of_nat k + 1))).
Proof.
  split; [exact to_letter_Label|].
  intros c s' Hrun k f Hk.
  destruct (process_returns _ _ _ _ _ _ _ _ Hrun) as (x0 & y & images & Hfacts & -> & _).
  destruct Hfacts as (_ & _ & _ & _ & _ & _ & Hlab & _).
  destruct (Labelled_lookup _ _ _ _ _ _ _ _ Hlab k f Hk)
    as (w & h & nw & _ & _ & _ & _ & _ & Himg).
  eexists. eexists. split; [apply combine_lookup; exact Himg|].
  simpl. now rewrite to_letter_Label.
Qed.

Lemma label_at_position_witness :
  to_letter 6 = Label 6
  /\ exists p off,
       pastes (Sample.row Sample.without_arial [Sample.image_a; Sample.image_b] 400)
         !! 1%nat = Some (p, off, 0)
       /\ label_of p = Some (Label (Z.of_nat 1 + 1)).
Proof.
  destruct (label_at_position Sample.identify Sample.loads Sample.without_arial
              [Sample.image_a; Sample.image_b] 400 Sample.start) as [Hrule Hdrawn].
  split; [apply Hrule|].
  apply (Hdrawn _ (Sample.ended Sample.without_arial [Sample.image_a; Sample.image_b] 400))
    with (f := Sample.image_b).
  - vm_compute. reflexivity.
  - reflexivity.
Defined.

(** Seven files in one row: the sixth and the seventh are labelled "6" and
    "7". *)
Example labels_of_seven :
  map (fun q => label_of (fst (fst q)))
      (pastes (Sample.row Sample.with_arial
                 [Sample.image_a; Sample.image_b; Sample.small; Sample.image_a;
                  Sample.image_b; Sample.small; Sample.image_a] 400))
  = map Some ["a"; "b"; "c"; "d"; "e"; "6"; "7"]%string.
Proof. vm_compute. reflexivity. Qed.

(** ** A file that does not decode *)

(** C4, as the program has it. Inside the domain, when a file does not
    decode and the files before it do, the run ends in Pillow's error for
    that file, passed on as raised, and returns no bytes.  The error is
    [UnidentifiedImageError] with the file for a file that is not
    recognised, [DecompressionBombError] for an image that is too large and
    [IOError] for data that is cut short: none carries the position. *)
Theorem decode_failure_aborts (identify : UploadedFile -> option (Z * Z))
    (loads : UploadedFile -> bool) (fonts : gset string)
    (before : list UploadedFile) (f : UploadedFile)
    (rest : list UploadedFile) (th : Z) (s : state) :
  height_ok th = true ->
  row_ok identify loads th before = true ->
  undecodable identify loads f = true ->
  process_and_combine_images identify loads fonts (before ++ f :: rest) th s =
    (Py.Raise (decode_error identify f), final_state fonts (length before) s).
Proof.
  intros Hok Hrow Hf. unfold row_ok in Hrow. apply andb_true_iff in Hrow as [Hall _].
  apply process_stops; [exact Hok|exact Hall|].
  intros i font font_size s1. now apply label_image_undecodable.
Qed.

Lemma decode_failure_aborts_witness :
  process_and_combine_images Sample.identify Sample.loads Sample.with_arial
    ([Sample.image_a; Sample.image_b] ++ Sample.corrupt :: [Sample.small]) 400
    Sample.start
  = (Py.Raise (Py.UnidentifiedImageError Sample.corrupt),
     {| next_id := 3; warnings := [] |})
  /\ process_and_combine_images Sample.identify Sample.loads Sample.with_arial
       ([Sample.image_a] ++ Sample.truncated :: [Sample.small]) 400 Sample.start
     = (Py.Raise Py.IOError, {| next_id := 2; warnings := [] |}).
Proof.
  split.
  - apply (decode_failure_aborts Sample.identify Sample.loads Sample.with_arial
             [Sample.image_a; Sample.image_b] Sample.corrupt [Sample.small] 400
             Sample.start); reflexivity.
  - apply (decode_failure_aborts Sample.identify Sample.loads Sample.with_arial
             [Sample.image_a] Sample.truncated [Sample.small] 400
             Sample.start); reflexivity.
Defined.

(** C4, as the specification words it, fails: the same file raises the same
    error as the first and as the second of the list, so nothing in the
    error tells the position. *)
Lemma error_does_not_name_position :
  ~ error_names_position Sample.identify Sample.loads Sample.with_arial 400 Sample.start.
Proof.
  intros [position_of H].
  destruct (H [] Sample.corrupt [] eq_refl eq_refl) as (e1 & s1 & Hrun1 & Hpos1).
  destruct (H [Sample.image_a] Sample.corrupt [] eq_refl eq_refl)
    as (e2 & s2 & Hrun2 & Hpos2).
  vm_compute in Hrun1. vm_compute in Hrun2.
  injection Hrun1 as <- _. injection Hrun2 as <- _.
  simpl in Hpos1, Hpos2. congruence.
Qed.

(** ** The empty list *)

(** C5. For the empty list the run returns [None]: no error is raised, no
    warning is given and no font is loaded, whatever the target height. *)
Theorem empty_input_returns_none (identify : UploadedFile -> option (Z * Z))
    (loads : UploadedFile -> bool) (fonts : gset string) (th : Z) (s : state) :
  process_and_combine_images identify loads fonts [] th s = (Py.Ok None, s).
Proof. reflexivity. Qed.

(** ** The place of each image in the row *)

(** C6. In a run that returns a composite, each resized image is pasted
    with its left edge at the sum of the widths of the images before it (0
    for the first) and its top edge at 0, on a canvas as wide as all of
    them, in input order; every image is at least 1 wide, so each column of
    the composite lies in the slot of exactly one image: no gap, no
    overlap. *)
Theorem pasted_at_cumulative_offset (identify : UploadedFile -> option (Z * Z))
    (loads : UploadedFile -> bool) (fonts : gset string)
    (files : list UploadedFile) (th : Z) (s s' : state) (c : PIL.Picture) :
  process_and_combine_images identify loads fonts files th s
    = (Py.Ok (Some (PIL.PNG c)), s') ->
  canvas c = PIL.New "RGB" (sum (map (rescaled_width identify th) files)) th "white"
  /\ length (pastes c) = length files
  /\ (forall (k : nat) (f : UploadedFile),
        files !! k = Some f ->
        exists p w h,
          pastes c !! k =
            Some (p, sum (map (rescaled_width identify th) (take k files)), 0)
          /\ unlabelled p =
               PIL.Resized (PIL.Opened f w h) (rescaled_width identify th f) th
          /\ 1 <= rescaled_width identify th f)
  /\ (forall col, 0 <= col < PIL.width c ->
        exists k p x,
          pastes c !! k = Some (p, x, 0)
          /\ x <= col < x + PIL.width p
          /\ forall k' p' x' y',
               pastes c !! k' = Some (p', x', y') ->
               x' <= col < x' + PIL.width p' -> k' = k).
Proof.
  intros Hrun.
  destruct (process_returns _ _ _ _ _ _ _ _ Hrun) as (x0 & y & images & Hfacts & -> & _).
  destruct Hfacts as (_ & _ & _ & _ & _ & _ & Hlab & _).
  split; [rewrite combine_canvas; now rewrite (Labelled_widths _ _ _ _ _ _ _ _ Hlab)|].
  split; [rewrite combine_length; eapply Labelled_length; exact Hlab|].
  split.
  - intros k f Hk.
    destruct (Labelled_lookup _ _ _ _ _ _ _ _ Hlab k f Hk)
      as (w & h & nw & Hf & _ & _ & Hnw & Hpos & Himg).
    eexists. exists w, h. split; [|split].
    + rewrite (combine_lookup _ _ _ _ Himg).
      now rewrite (take_map_width _ _ _ _ _ _ _ _ k Hlab).
    + simpl. unfold rescaled_width. now rewrite Hf, Hnw.
    + unfold rescaled_width. rewrite Hf, Hnw. lia.
  - apply combine_columns.
    eapply Forall_impl; [eapply Labelled_positive; exact Hlab|]. simpl. intros; lia.
Qed.

Lemma pasted_at_cumulative_offset_witness :
  canvas (Sample.row Sample.with_arial [Sample.image_a; Sample.image_b] 400)
    = PIL.New "RGB"
        (sum (map (rescaled_width Sample.identify 400) [Sample.image_a; Sample.image_b]))
        400 "white"
  /\ length (pastes (Sample.row Sample.with_arial [Sample.image_a; Sample.image_b] 400))
     = length [Sample.image_a; Sample.image_b]
  /\ (forall (k : nat) (f : UploadedFile),
        [Sample.image_a; Sample.image_b] !! k = Some f ->
        exists p w h,
          pastes (Sample.row Sample.with_arial [Sample.image_a; Sample.image_b] 400) !! k =
            Some (p, sum (map (rescaled_width Sample.identify 400)
                            (take k [Sample.image_a; Sample.image_b])), 0)
          /\ unlabelled p =
               PIL.Resized (PIL.Opened f w h) (rescaled_width Sample.identify 400 f) 400
          /\ 1 <= rescaled_width Sample.identify 400 f)
  /\ (forall col,
        0 <= col
          < PIL.width (Sample.row Sample.with_arial [Sample.image_a; Sample.image_b] 400) ->
        exists k p x,
          pastes (Sample.row Sample.with_arial [Sample.image_a; Sample.image_b] 400) !! k
            = Some (p, x, 0)
          /\ x <= col < x + PIL.width p
          /\ forall k' p' x' y',
               pastes (Sample.row Sample.with_arial [Sample.image_a; Sample.image_b] 400)
                 !! k' = Some (p', x', y') ->
               x' <= col < x' + PIL.width p' -> k' = k).
Proof.
  apply (pasted_at_cumulative_offset Sample.identify Sample.loads Sample.with_arial
           [Sample.image_a; Sample.image_b] 400 Sample.start
           (Sample.ended Sample.with_arial [Sample.image_a; Sample.image_b] 400)).
  vm_compute. reflexivity.
Defined.

(** The example of the specification: the second image goes to x = 200. *)
Example offsets_of_the_two_samples :
  exists a b,
    fst (process_and_combine_images Sample.identify Sample.loads Sample.with_arial
           [Sample.image_a; Sample.image_b] 400 Sample.start)
      = Py.Ok (Some (PIL.PNG (PIL.Paste (PIL.Paste (PIL.New "RGB" 1400 400 "white") a 0 0)
                                        b 200 0)))
    /\ label_of a = Some "a"%string /\ label_of b = Some "b"%string.
Proof. eexists. eexists. split; [vm_compute; reflexivity|]. split; reflexivity. Qed.

(** ** Two runs on the same input *)

(** C7. A second run on the same files and the same target height, started
    in the state the first run left (its font objects allocated, its warning
    logged), returns what the first run returned: the same bytes, the same
    [None] or the same error. *)
Theorem two_runs_same_output (identify : UploadedFile -> option (Z * Z))
    (loads : UploadedFile -> bool) (fonts : gset string)
    (files : list UploadedFile) (th : Z) (s : state) :
  fst (process_and_combine_images identify loads fonts files th
         (snd (process_and_combine_images identify loads fonts files th s)))
  = fst (process_and_combine_images identify loads fonts files th s).
Proof. apply process_indep. Qed.

(** ** The font *)

(** C8, as the program has it. For a target height from 10 to 10000 the
    font size is [int(target_height * 0.1)], the float product cut to its
    integer part, which is the integer quotient of the height by 10. When
    the system has "arial.ttf" the font is loaded at that size and no
    warning is given; when it has not, the default font is taken,
    [font_size] is 18 and one warning is logged; neither case raises. For a
    height from 0 to 9 the size is 0 and [truetype] raises [ValueError],
    which the program does not catch. *)
Theorem font_setup_truncates (fonts : gset string) (th : Z) (s : state) :
  (height_ok th = true ->
   exists x,
     Py.int_mul_float th Py.lit_0_1 = Py.Ok x
     /\ Py.trunc x = th / 10
     /\ font_setup fonts th s =
          if decide ("arial.ttf" ∈ fonts) then
            (Py.Ok ({| PIL.font_id := next_id s;
                       PIL.face := PIL.FreeTypeFont "arial.ttf" (Py.trunc x) |}, Py.trunc x),
             {| next_id := S (next_id s); warnings := warnings s |})
          else
            (Py.Ok ({| PIL.font_id := next_id s; PIL.face := PIL.DefaultFont |}, 18),
             {| next_id := S (next_id s); warnings := warnings s ++ [arial_warning] |}))
  /\ (0 <= th < 10 -> font_setup fonts th s = (Py.Raise Py.ValueError, s)).
Proof.
  split.
  - intros Hok. destruct (tenth_value th Hok) as (x & Hx & _ & Htr & _).
    exists x. split; [exact Hx|]. split; [exact Htr|].
    rewrite Htr. apply font_setup_run. exact Hok.
  - apply font_setup_below_10.
Qed.

Lemma font_setup_truncates_witness :
  (exists x,
     Py.int_mul_float 400 Py.lit_0_1 = Py.Ok x
     /\ Py.trunc x = 400 / 10
     /\ font_setup Sample.without_arial 400 Sample.start =
          if decide ("arial.ttf" ∈ Sample.without_arial) then
            (Py.Ok ({| PIL.font_id := next_id Sample.start;
                       PIL.face := PIL.FreeTypeFont "arial.ttf" (Py.trunc x) |}, Py.trunc x),
             {| next_id := S (next_id Sample.start); warnings := warnings Sample.start |})
          else
            (Py.Ok ({| PIL.font_id := next_id Sample.start; PIL.face := PIL.DefaultFont |}, 18),
             {| next_id := S (next_id Sample.start);
                warnings := warnings Sample.start ++ [arial_warning] |}))
  /\ font_setup Sample.without_arial 5 Sample.start = (Py.Raise Py.ValueError, Sample.start).
Proof.
  destruct (font_setup_truncates Sample.without_arial 400 Sample.start) as [Hin _].
  destruct (font_setup_truncates Sample.without_arial 5 Sample.start) as [_ Hbelow].
  split; [apply Hin; reflexivity|apply Hbelow; lia].
Defined.

(** C8, as the specification words it, fails at height 19: a tenth of it is
    nearest to 2, and the font is loaded at size 1. *)
Lemma font_size_not_rounded_to_nearest :
  ~ font_size_rounds_to_nearest Sample.with_arial 19 Sample.start.
Proof.
  intros (font & s' & Hrun & Hface).
  vm_compute in Hrun. injection Hrun as <- _. vm_compute in Hface. discriminate.
Qed.

Example font_setup_at_19 :
  fst (font_setup Sample.with_arial 19 Sample.start) =
    Py.Ok ({| PIL.font_id := 0; PIL.face := PIL.FreeTypeFont "arial.ttf" 1 |}, 1)
  /\ nearest_int 19 10 = 2.
Proof. split; reflexivity. Qed.

(** ** The position of the label *)

(** The comparison with a fresh default font never finds the two equal, so
    the offset is never the fixed 25. *)
Lemma text_y_offset_is_float (font : PIL.font) (font_size : Z) (s : state) :
  (PIL.font_id font < next_id s)%nat ->
  fst (text_y_offset font font_size s) <> Py.Ok (Py.Int 25).
Proof.
  intros Hid. unfold text_y_offset, load_default, alloc_font, PIL.font_ne, bind, ret, lift.
  simpl. replace (PIL.font_id font =? next_id s)%nat with false
    by (symmetry; apply Nat.eqb_neq; lia).
  simpl. destruct (Py.int_mul_float font_size Py.lit_1_5); simpl; discriminate.
Qed.

(** C9 at the failing input: one 100 x 200 image, target height 400, no
    "arial.ttf". The label is drawn in the default font at x = 10 and
    y = 373.0, that is 400 - 18 * 1.5, not at 400 - 25 = 375. *)
Theorem fallback_label_position :
  exists c s' p y,
    process_and_combine_images Sample.identify Sample.loads Sample.without_arial
      [Sample.image_a] 400 Sample.start = (Py.Ok (Some (PIL.PNG c)), s')
    /\ pastes c = [(p, 0, 0)]
    /\ label_font p = Some PIL.DefaultFont
    /\ label_xy p = Some (Py.Int 10, Py.Float y)
    /\ Py.float_of_int 373 = Py.Ok y
    /\ Py.float_of_int 375 <> Py.Ok y.
Proof.
  eexists. eexists. eexists. eexists.
  split; [vm_compute; reflexivity|].
  split; [reflexivity|]. split; [reflexivity|]. split; [reflexivity|].
  split; [reflexivity|]. vm_compute. discriminate.
Qed.

(** With the system font the same input gives y = 340.0 = 400 - 40 * 1.5. *)
Example system_font_label_position :
  exists c s' p y,
    process_and_combine_images Sample.identify Sample.loads Sample.with_arial
      [Sample.image_a] 400 Sample.start = (Py.Ok (Some (PIL.PNG c)), s')
    /\ pastes c = [(p, 0, 0)]
    /\ label_font p = Some (PIL.FreeTypeFont "arial.ttf" 40)
    /\ label_xy p = Some (Py.Int 10, Py.Float y)
    /\ Py.float_of_int 340 = Py.Ok y.
Proof.
  eexists. eexists. eexists. eexists.
  split; [vm_compute; reflexivity|].
  split; [reflexivity|]. split; [reflexivity|]. split; [reflexivity|]. reflexivity.
Qed.

(** ** An image whose new width is 0 *)

(** C10, as the program has it. No composite the run returns has an empty
    slot: every pasted image is at least 1 wide.  Inside the domain, when
    the new width of a file comes out 0 and the files before it are
    resized, [resize] raises [ValueError] at that file: the run stops
    there and returns no bytes. *)
Theorem zero_width_aborts (identify : UploadedFile -> option (Z * Z))
    (loads : UploadedFile -> bool) (fonts : gset string) (th : Z) (s : state) :
  (forall files c s' (k : nat) p off y,
     process_and_combine_images identify loads fonts files th s
       = (Py.Ok (Some (PIL.PNG c)), s') ->
     pastes c !! k = Some (p, off, y) -> 1 <= PIL.width p)
  /\ (forall before f rest w h,
        height_ok th = true ->
        row_ok identify loads th before = true ->
        decodable identify loads f = true ->
        identify f = Some (w, h) ->
        new_width w h th = Py.Ok 0 ->
        process_and_combine_images identify loads fonts (before ++ f :: rest) th s =
          (Py.Raise Py.ValueError, final_state fonts (length before) s)).
Proof.
  split.
  - intros files c s' k p off y Hrun Hk.
    destruct (process_returns _ _ _ _ _ _ _ _ Hrun)
      as (x0 & y0 & images & Hfacts & -> & _).
    destruct Hfacts as (_ & _ & _ & _ & _ & _ & Hlab & _).
    assert (k < length images)%nat as Hlt
      by (apply lookup_lt_Some in Hk; now rewrite combine_length in Hk).
    destruct (lookup_lt_is_Some_2 images k Hlt) as [q Hq].
    rewrite (combine_lookup images th k q Hq) in Hk. injection Hk as <- _ _.
    pose proof (Labelled_positive _ _ _ _ _ _ _ _ Hlab) as Hall.
    rewrite Forall_lookup in Hall. exact (Hall k q Hq).
  - intros before f rest w h Hok Hrow Hdec Hf Hnw.
    unfold row_ok in Hrow. apply andb_true_iff in Hrow as [Hall _].
    pose proof (height_ok_range th Hok) as Hth.
    unfold decodable in Hdec. rewrite Hf in Hdec.
    apply andb_true_iff in Hdec as [Hdec Hl]. apply andb_true_iff in Hdec as [_ Hb].
    apply negb_true_iff in Hb. simpl in Hb.
    apply process_stops; [exact Hok|exact Hall|].
    intros i font font_size s1.
    apply (label_image_empty identify loads i f th font font_size s1 w h 0 Hf Hb Hl Hnw);
      [lia|]. unfold max_dim. lia.
Qed.

Lemma zero_width_aborts_witness :
  process_and_combine_images Sample.identify Sample.loads Sample.with_arial
    ([Sample.image_a] ++ Sample.thin :: [Sample.image_b]) 400 Sample.start
  = (Py.Raise Py.ValueError, final_state Sample.with_arial 1 Sample.start)
  /\ (forall (k : nat) p off y,
        pastes (Sample.row Sample.with_arial [Sample.image_a; Sample.small] 400) !! k
          = Some (p, off, y) ->
        1 <= PIL.width p).
Proof.
  destruct (zero_width_aborts Sample.identify Sample.loads Sample.with_arial 400
              Sample.start) as [Hslot Hstop].
  split.
  - apply (Hstop [Sample.image_a] Sample.thin [Sample.image_b] 1 1000); reflexivity.
  - intros k p off y.
    apply (Hslot [Sample.image_a; Sample.small]
             (Sample.row Sample.with_arial [Sample.image_a; Sample.small] 400)
             (Sample.ended Sample.with_arial [Sample.image_a; Sample.small] 400)).
    vm_compute. reflexivity.
Defined.

(** C10, as worded, fails at its own example: with the 1 x 1000
    image between the two other samples at height 400 the new width is 0,
    but no composite is returned, so no image of width 0 is pasted. *)
Lemma no_empty_slot_in_composite :
  ~ composite_with_empty_slot Sample.identify Sample.loads Sample.with_arial
      [Sample.image_a; Sample.thin; Sample.image_b] 400 Sample.start.
Proof. intros (c & s' & k & p & off & Hrun & _). vm_compute in Hrun. discriminate. Qed.

Example thin_image_new_width :
  decodable Sample.identify Sample.loads Sample.thin = true
  /\ Sample.identify Sample.thin = Some (1, 1000)
  /\ 1 * 400 < 1000
  /\ new_width 1 1000 400 = Py.Ok 0.
Proof. repeat split; reflexivity. Qed.
(** ** Exact scaling: floats that hold integers *)

Module FloatExact.

Import Py FloatFacts.

Lemma Zdigits2_unique (m k : Z) :
  0 < m -> 2 ^ (k - 1) <= m < 2 ^ k -> Zdigits2 m = k.
Proof.
  intros Hm [Hlo Hhi].
  pose proof (Zdigits2_lb m Hm) as Hlb.
  pose proof (Zdigits2_ub m ltac:(lia)) as Hub.
  pose proof (Zdigits2_nonneg m) as Hd.
  assert (0 < k).
  { destruct (Z_lt_dec 0 k); [assumption|exfalso].
    destruct (Z.eq_dec k 0) as [->|];
      [simpl in Hhi; lia | rewrite (Z.pow_neg_r 2 k) in Hhi by lia; lia]. }
  assert (2 ^ (Zdigits2 m - 1) < 2 ^ k) as H1 by lia.
  assert (2 ^ (k - 1) < 2 ^ Zdigits2 m) as H2 by lia.
  apply Z.pow_lt_mono_r_iff in H1; [|lia|lia].
  apply Z.pow_lt_mono_r_iff in H2; [|lia|lia]. lia.
Qed.

Lemma Zdigits2_mul_pow2 (z t : Z) :
  0 < z -> 0 <= t -> Zdigits2 (z * 2 ^ t) = Zdigits2 z + t.
Proof.
  intros Hz Ht.
  assert (0 < 2 ^ t) as Hp by (apply Z.pow_pos_nonneg; lia).
  pose proof (Zdigits2_lb z Hz) as Hlb.
  pose proof (Zdigits2_ub z ltac:(lia)) as Hub.
  assert (0 < Zdigits2 z) as Hd by (destruct z; simpl; lia).
  apply Zdigits2_unique; [nia|].
  replace (Zdigits2 z + t - 1) with (Zdigits2 z - 1 + t) by lia.
  rewrite !Z.pow_add_r by lia. nia.
Qed.

(** Shifting out zero bits loses nothing. *)
Lemma shr_1_even (z : Z) :
  0 < z -> shr_1 (exact_record (2 * z)) = exact_record z.
Proof. destruct z; try lia. reflexivity. Qed.

Lemma iter_shr_1_exact (p : positive) :
  forall z, 0 < z ->
    SpecFloat.iter_pos shr_1 p (exact_record (z * 2 ^ Zpos p)) = exact_record z.
Proof.
  induction p as [p IH|p IH|]; intros z Hz; cbn [SpecFloat.iter_pos].
  - assert (0 < 2 ^ Z.pos p) as Hp by (apply Z.pow_pos_nonneg; lia).
    replace (z * 2 ^ Z.pos p~1) with (2 * (z * 2 ^ Z.pos p * 2 ^ Z.pos p)).
    2:{ replace (Z.pos p~1) with (1 + Z.pos p + Z.pos p) by lia.
        rewrite !Z.pow_add_r by lia. change (2 ^ 1) with 2. lia. }
    rewrite shr_1_even by nia. rewrite IH by nia. apply IH; lia.
  - assert (0 < 2 ^ Z.pos p) as Hp by (apply Z.pow_pos_nonneg; lia).
    replace (z * 2 ^ Z.pos p~0) with (z * 2 ^ Z.pos p * 2 ^ Z.pos p).
    2:{ replace (Z.pos p~0) with (Z.pos p + Z.pos p) by lia.
        rewrite Z.pow_add_r by lia. lia. }
    rewrite IH by nia. apply IH; lia.
  - change (2 ^ 1) with 2. rewrite Z.mul_comm. now apply shr_1_even.
Qed.

(** Rounding [v * 2 ^ t * 2 ^ (- t)], an integer [v] under [2 ^ 53]: the
    result holds [v]. *)
Lemma round_int (sx : bool) (v t : Z) :
  0 < v < 2 ^ 53 -> 0 <= t ->
  holds_int sx v (binary_round_aux prec emax sx (v * 2 ^ t) (- t) loc_Exact).
Proof.
  intros Hv Ht.
  assert (0 < Zdigits2 v <= 53) as Hd.
  { split; [destruct v; simpl; lia|apply Zdigits2_le; lia]. }
  assert (0 < 2 ^ t) as Hpt by (apply Z.pow_pos_nonneg; lia).
  unfold binary_round_aux, shr_fexp.
  rewrite Zdigits2_mul_pow2 by lia.
  replace (fexp prec emax (Zdigits2 v + t + - t) - - t) with (Zdigits2 v - 53 + t)
    by (unfold fexp, emin, prec, emax; lia).
  change (shr_record_of_loc (v * 2 ^ t) loc_Exact) with (exact_record (v * 2 ^ t)).
  unfold shr at 1.
  destruct (Zdigits2 v - 53 + t) as [|n|n] eqn:Hn.
  - (* already canonical *)
    change (loc_of_shr_record (exact_record (v * 2 ^ t))) with loc_Exact.
    simpl round_nearest_even. simpl shr_m.
    rewrite Zdigits2_mul_pow2 by lia.
    replace (fexp prec emax (Zdigits2 v + t + - t) - - t) with 0
      by (unfold fexp, emin, prec, emax; lia).
    simpl shr. simpl shr_m.
    destruct (v * 2 ^ t) as [|m|m] eqn:Hm; try nia.
    replace (- t <=? emax - prec) with true
      by (symmetry; apply Z.leb_le; unfold emax, prec; lia).
    exists m, t. repeat split; lia.
  - (* [n] zero bits are shifted out *)
    replace (v * 2 ^ t) with (v * 2 ^ (t - Z.pos n) * 2 ^ Z.pos n)
      by (rewrite <- Z.mul_assoc, <- Z.pow_add_r by lia; f_equal; f_equal; lia).
    assert (0 < 2 ^ (t - Z.pos n)) as Hpu by (apply Z.pow_pos_nonneg; lia).
    rewrite iter_shr_1_exact by nia.
    change (loc_of_shr_record (exact_record (v * 2 ^ (t - Z.pos n)))) with loc_Exact.
    simpl round_nearest_even. simpl shr_m.
    rewrite Zdigits2_mul_pow2 by lia.
    replace (fexp prec emax (Zdigits2 v + (t - Z.pos n) + (- t + Z.pos n))
             - (- t + Z.pos n)) with 0
      by (unfold fexp, emin, prec, emax; lia).
    simpl shr. simpl shr_m.
    destruct (v * 2 ^ (t - Z.pos n)) as [|m|m] eqn:Hm; try nia.
    replace (- t + Z.pos n <=? emax - prec) with true
      by (symmetry; apply Z.leb_le; unfold emax, prec; lia).
    exists m, (t - Z.pos n). repeat split; try lia. f_equal. lia.
  - (* fewer than 53 digits: nothing is shifted *)
    change (loc_of_shr_record (exact_record (v * 2 ^ t))) with loc_Exact.
    simpl round_nearest_even. simpl shr_m.
    rewrite Zdigits2_mul_pow2 by lia.
    replace (fexp prec emax (Zdigits2 v + t + - t) - - t) with (Z.neg n)
      by (unfold fexp, emin, prec, emax; lia).
    simpl shr. simpl shr_m.
    destruct (v * 2 ^ t) as [|m|m] eqn:Hm; try nia.
    replace (- t <=? emax - prec) with true
      by (symmetry; apply Z.leb_le; unfold emax, prec; lia).
    exists m, t. repeat split; lia.
Qed.

Lemma Zpos_iter_xO (d p : positive) :
  Zpos (Pos.iter xO p d) = Zpos p * 2 ^ Zpos d.
Proof.
  induction d as [|d IH] using Pos.peano_ind.
  - simpl. lia.
  - rewrite Pos.iter_succ, Pos2Z.inj_xO, IH, Pos2Z.inj_succ, Z.pow_succ_r by lia. lia.
Qed.

Lemma float_of_int_holds (w : Z) :
  0 < w < 2 ^ 53 -> exists x, float_of_int w = Ok x /\ holds_int false w x.
Proof.
  intros Hw. destruct w as [|p|p]; try lia.
  assert (0 < Zdigits2 (Z.pos p) <= 53) as Hd
    by (split; [simpl; lia|apply Zdigits2_le; lia]).
  simpl in Hd.
  assert (holds_int false (Z.pos p) (binary_round prec emax false p 0)) as H.
  { unfold binary_round, shl_align.
    replace (fexp prec emax (Z.pos (digits2_pos p) + 0) - 0)
      with (Z.pos (digits2_pos p) - 53) by (unfold fexp, emin, prec, emax; lia).
    replace (fexp prec emax (Z.pos (digits2_pos p) + 0))
      with (Z.pos (digits2_pos p) - 53) by (unfold fexp, emin, prec, emax; lia).
    destruct (Z.pos (digits2_pos p) - 53) as [|d|d] eqn:Hs; try lia.
    - pose proof (round_int false (Z.pos p) 0 Hw ltac:(lia)) as H.
      change (2 ^ 0) with 1 in H. rewrite Z.mul_1_r in H. exact H.
    - rewrite Zpos_iter_xO. change (Z.neg d) with (- Z.pos d). apply round_int; lia. }
  unfold float_of_int, binary_normalize.
  destruct H as (m & u & Hx & Hu & Hm). rewrite Hx.
  eexists. split; [reflexivity|]. exists m, u. auto.
Qed.

Lemma div_eucl_mul (a b : Z) : b <> 0 -> Z.div_eucl (a * b) b = (a, 0).
Proof.
  intros Hb. pose proof (Z.div_mul a b Hb) as Hq. pose proof (Z.mod_mul a b Hb) as Hr.
  unfold Z.div, Z.modulo in Hq, Hr.
  destruct (Z.div_eucl (a * b) b) as [q r]. simpl in Hq, Hr. congruence.
Qed.

Lemma truediv_holds (k h : Z) :
  0 < k < 2 ^ 53 -> 0 < h ->
  exists x, truediv (k * h) h = Ok x /\ holds_int false k x.
Proof.
  intros Hk Hh.
  assert (holds_int false k
            (let '(mz, ez, lz) := SFdiv_core_binary prec emax (k * h) 0 h 0 in
             binary_round_aux prec emax false mz ez lz)) as H.
  { unfold SFdiv_core_binary.
    set (e' := Z.min (fexp prec emax (Zdigits2 (k * h) + 0 - (Zdigits2 h + 0))) (0 - 0)).
    assert (e' <= 0) as He' by (subst e'; lia).
    assert (match 0 - 0 - e' with
            | 0 => k * h
            | Z.pos _ => Z.shiftl (k * h) (0 - 0 - e')
            | Z.neg _ => 0
            end = k * 2 ^ (- e') * h) as ->.
    { destruct (0 - 0 - e') as [|s|s] eqn:Hs; try lia.
      - replace (- e') with 0 by lia. simpl. lia.
      - rewrite Z.shiftl_mul_pow2 by lia. replace (- e') with (Z.pos s) by lia. lia. }
    rewrite div_eucl_mul by lia.
    assert (new_location h 0 = loc_Exact) as ->
      by (unfold new_location, new_location_even, new_location_odd;
          destruct (Z.even h); reflexivity).
    replace e' with (- - e') at 2 by lia. apply round_int; lia. }
  unfold truediv.
  destruct h as [|h'|h'] eqn:Eh; try lia. rewrite <- Eh in *.
  destruct (k * h) as [|a|a] eqn:Ea; try nia. rewrite <- Ea in *.
  replace (Z.abs (k * h)) with (k * h) by lia.
  replace (Z.abs h) with h by lia.
  replace (k * h <? 0) with false by (symmetry; apply Z.ltb_ge; lia).
  replace (h <? 0) with false by (symmetry; apply Z.ltb_ge; lia).
  simpl xorb.
  destruct (SFdiv_core_binary prec emax (k * h) 0 h 0) as [[mz ez] lz].
  destruct H as (m & u & Hx & Hu & Hm). rewrite Hx.
  eexists. split; [reflexivity|]. exists m, u. auto.
Qed.

Lemma fmul_holds (x y : float) (v1 v2 : Z) :
  holds_int false v1 x -> holds_int false v2 y ->
  0 < v1 -> 0 < v2 -> v1 * v2 < 2 ^ 53 ->
  holds_int false (v1 * v2) (fmul x y).
Proof.
  intros (m1 & u1 & -> & Hu1 & Hm1) (m2 & u2 & -> & Hu2 & Hm2) H1 H2 H12.
  unfold fmul, SFmul. simpl xorb.
  rewrite Pos2Z.inj_mul, Hm1, Hm2.
  replace (v1 * 2 ^ u1 * (v2 * 2 ^ u2)) with (v1 * v2 * 2 ^ (u1 + u2))
    by (rewrite Z.pow_add_r by lia; lia).
  replace (- u1 + - u2) with (- (u1 + u2)) by lia.
  apply round_int; nia.
Qed.

Lemma int_holds (x : float) (v : Z) :
  holds_int false v x -> int x = Ok v.
Proof.
  intros (m & u & -> & Hu & Hm). simpl. f_equal.
  destruct u as [|p|p]; try lia; simpl.
  - simpl in Hm. lia.
  - rewrite Z.pow_pos_fold, Hm. apply Z.div_mul.
    assert (0 < 2 ^ Z.pos p) by (apply Z.pow_pos_nonneg; lia). lia.
Qed.

End FloatExact.

(** X3. When the target height is a whole multiple [k] of the height of an
    image, the image is resized to exactly [k] times its width: the float
    steps lose nothing (as long as the new width is under [2 ^ 53]).  With
    [k = 1]: an image that has the target height keeps its width. *)
Theorem new_width_whole_multiple (w h k : Z) :
  0 < w -> 0 < h -> 0 < k -> w * k < 2 ^ 53 ->
  new_width w h (k * h) = Py.Ok (w * k).
Proof.
  intros Hw Hh Hk Hwk.
  assert (w < 2 ^ 53 /\ k < 2 ^ 53) as [Hw' Hk'] by nia.
  destruct (FloatExact.truediv_holds k h ltac:(lia) Hh) as (ratio & Hr & Hratio).
  destruct (FloatExact.float_of_int_holds w ltac:(lia)) as (fw & Hfw & Hfloat).
  unfold new_width, Py.int_mul_float. rewrite Hr, Hfw.
  apply FloatExact.int_holds.
  apply FloatExact.fmul_holds; assumption.
Qed.

Lemma new_width_whole_multiple_witness :
  0 < 300 /\ 0 < 100 /\ 0 < 4 /\ 300 * 4 < 2 ^ 53 /\
  new_width 300 100 (4 * 100) = Py.Ok (300 * 4).
Proof.
  assert (0 < 300) as H1 by lia. assert (0 < 100) as H2 by lia.
  assert (0 < 4) as H3 by lia. assert (300 * 4 < 2 ^ 53) as H4 by reflexivity.
  exact (conj H1 (conj H2 (conj H3 (conj H4
           (new_width_whole_multiple 300 100 4 H1 H2 H3 H4))))).
Defined.

(** ** More on the labels *)

Lemma letter_is_no_numeral (i : Z) :
  1 <= i <= 5 -> int_of_decimal (Py.chr (96 + i)) = None.
Proof.
  intros Hi.
  assert (i = 1 \/ i = 2 \/ i = 3 \/ i = 4 \/ i = 5) as [->|[->|[->|[->| ->]]]] by lia;
    reflexivity.
Qed.

Lemma to_letter_one_to_one (i j : Z) : to_letter i = to_letter j -> i = j.
Proof.
  unfold to_letter. intros H.
  destruct ((1 <=? i) && (i <=? 5)) eqn:Hi; destruct ((1 <=? j) && (j <=? 5)) eqn:Hj.
  - assert (i = 1 \/ i = 2 \/ i = 3 \/ i = 4 \/ i = 5) as Ei by lia.
    assert (j = 1 \/ j = 2 \/ j = 3 \/ j = 4 \/ j = 5) as Ej by lia.
    destruct Ei as [->|[->|[->|[->| ->]]]]; destruct Ej as [->|[->|[->|[->| ->]]]];
      try reflexivity; vm_compute in H; discriminate.
  - apply (f_equal int_of_decimal) in H.
    rewrite letter_is_no_numeral, str_is_decimal in H by lia. discriminate.
  - apply (f_equal int_of_decimal) in H.
    rewrite letter_is_no_numeral, str_is_decimal in H by lia. discriminate.
  - apply (f_equal int_of_decimal) in H. rewrite !str_is_decimal in H. congruence.
Qed.

(** X1. [to_letter] gives different labels to different numbers: the five
    letters differ from each other and from every decimal numeral, and
    numerals of different integers differ. *)
Theorem to_letter_injective (i j : Z) : to_letter i = to_letter j -> i = j.
Proof. apply to_letter_one_to_one. Qed.

Lemma to_letter_injective_witness :
  to_letter 3 = to_letter (1 + 2) /\ 3 = 1 + 2.
Proof.
  assert (to_letter 3 = to_letter (1 + 2)) as H by reflexivity.
  exact (conj H (to_letter_injective 3 (1 + 2) H)).
Defined.

(** X2. In a composite the run returns no two images carry the same
    label. *)
Theorem labels_pairwise_distinct (identify : UploadedFile -> option (Z * Z))
    (loads : UploadedFile -> bool) (fonts : gset string)
    (files : list UploadedFile) (th : Z) (s s' : state) (c : PIL.Picture) :
  process_and_combine_images identify loads fonts files th s
    = (Py.Ok (Some (PIL.PNG c)), s') ->
  forall (k k' : nat) p p' off off' y y',
    pastes c !! k = Some (p, off, y) ->
    pastes c !! k' = Some (p', off', y') ->
    label_of p = label_of p' -> k = k'.
Proof.
  intros Hrun k k' p p' off off' y y' Hk Hk' Heq.
  destruct (process_returns _ _ _ _ _ _ _ _ Hrun) as (x0 & y0 & images & Hfacts & -> & _).
  destruct Hfacts as (_ & _ & _ & _ & _ & _ & Hlab & _).
  destruct (pasted_label _ _ _ _ _ _ _ _ _ _ _ Hlab Hk) as [Hl _].
  destruct (pasted_label _ _ _ _ _ _ _ _ _ _ _ Hlab Hk') as [Hl' _].
  rewrite Hl, Hl' in Heq.
  injection Heq as Heq. apply to_letter_one_to_one in Heq. lia.
Qed.

Lemma labels_pairwise_distinct_witness :
  exists p p' off off',
    pastes (Sample.row Sample.with_arial [Sample.image_a; Sample.image_b] 400) !! 0%nat
      = Some (p, off, 0)
    /\ pastes (Sample.row Sample.with_arial [Sample.image_a; Sample.image_b] 400) !! 1%nat
       = Some (p', off', 0)
    /\ (label_of p = label_of p' -> 0%nat = 1%nat).
Proof.
  eexists. eexists. eexists. eexists.
  split; [vm_compute; reflexivity|]. split; [vm_compute; reflexivity|].
  eapply (labels_pairwise_distinct Sample.identify Sample.loads Sample.with_arial
            [Sample.image_a; Sample.image_b] 400 Sample.start
            (Sample.ended Sample.with_arial [Sample.image_a; Sample.image_b] 400)
            (Sample.row Sample.with_arial [Sample.image_a; Sample.image_b] 400)
            ltac:(vm_compute; reflexivity) 0%nat 1%nat);
    vm_compute; reflexivity.
Defined.

(** ** What the run returns and raises *)

(** X4. The run returns [None] for the empty list and for no other input:
    a run that fails raises, it does not return [None]. *)
Theorem returns_none_iff_empty (identify : UploadedFile -> option (Z * Z))
    (loads : UploadedFile -> bool) (fonts : gset string)
    (files : list UploadedFile) (th : Z) (s : state) :
  fst (process_and_combine_images identify loads fonts files th s) = Py.Ok None
  <-> files = [].
Proof.
  split; [|intros ->; reflexivity].
  destruct (decide (files = [])) as [->|Hne]; [reflexivity|].
  intros H. exfalso. revert H. rewrite process_eq by exact Hne.
  destruct (font_setup fonts th s) as [[[font font_size]|e] s1]; [|discriminate].
  destruct (label_images identify loads 0 files th font font_size [] s1)
    as [[images|e] s2]; [|discriminate].
  cbv zeta.
  destruct ((sum (map PIL.width images) <? 0) || (th <? 0)); [discriminate|].
  destruct (negb (PIL.c_int (sum (map PIL.width images)) && PIL.c_int th)); discriminate.
Qed.

(** The exceptions of the arithmetic are no errors of decoding. *)
Lemma int_mul_float_raises (n : Z) (f : Py.float) (e : Py.exn) :
  Py.int_mul_float n f = Py.Raise e -> e = Py.OverflowError.
Proof.
  unfold Py.int_mul_float, Py.float_of_int.
  destruct (binary_normalize Py.prec Py.emax n 0 false); congruence.
Qed.

Lemma int_raises (x : Py.float) (e : Py.exn) :
  Py.int x = Py.Raise e -> e = Py.OverflowError \/ e = Py.ValueError.
Proof. destruct x; simpl; intros [=]; auto. Qed.

Lemma truediv_raises (a b : Z) (e : Py.exn) :
  Py.truediv a b = Py.Raise e -> e = Py.ZeroDivisionError \/ e = Py.OverflowError.
Proof.
  unfold Py.truediv. destruct b; [intros [=]; auto| |];
    (destruct a; [discriminate| |];
     destruct (SFdiv_core_binary _ _ _ _ _ _) as [[mz ez] lz];
     destruct (binary_round_aux _ _ _ _ _ _); intros [=]; auto).
Qed.

Lemma new_width_raises (w h th : Z) (e : Py.exn) :
  new_width w h th = Py.Raise e -> decoding_error e = false.
Proof.
  unfold new_width. destruct (Py.truediv th h) as [ratio|e1] eqn:Hr.
  - destruct (Py.int_mul_float w ratio) as [x|e2] eqn:Hx.
    + intros H. apply int_raises in H as [-> | ->]; reflexivity.
    + intros [= <-]. apply int_mul_float_raises in Hx as ->. reflexivity.
  - intros [= <-]. apply truediv_raises in Hr as [-> | ->]; reflexivity.
Qed.

Lemma label_position_raises (th font_size : Z) (e : Py.exn) :
  label_position th font_size = Py.Raise e -> decoding_error e = false.
Proof.
  unfold label_position.
  destruct (Py.int_mul_float font_size Py.lit_1_5) as [x|e1] eqn:Hx.
  - simpl. unfold Py.float_of_int.
    destruct (binary_normalize Py.prec Py.emax th 0 false); intros [=]; subst; reflexivity.
  - intros [= <-]. apply int_mul_float_raises in Hx as ->. reflexivity.
Qed.

Lemma label_image_raises identify loads i f th font font_size s e s' :
  (PIL.font_id font < next_id s)%nat ->
  label_image identify loads i f th font font_size s = (Py.Raise e, s') ->
  decoding_error e = true -> file_raises identify loads f e.
Proof.
  intros Hid. rewrite label_image_eq by exact Hid.
  destruct (identify f) as [[w h]|] eqn:Hf; [|intros [= <- _] _; simpl; auto].
  destruct (PIL.bomb w h) eqn:Hb; [intros [= <- _] _; simpl; eauto|].
  destruct (loads f) eqn:Hl; [|intros [= <- _] _; simpl; eauto].
  destruct (new_width w h th) as [nw|e1] eqn:Hnw.
  2:{ intros [= <- _] He. apply new_width_raises in Hnw. congruence. }
  destruct (negb (PIL.c_int nw && PIL.c_int th)); [intros [= <- _]; discriminate|].
  destruct ((nw <? 1) || (th <? 1)); [intros [= <- _]; discriminate|].
  destruct (label_position th font_size) as [y|e1] eqn:Hy; [discriminate|].
  intros [= <- _] He. apply label_position_raises in Hy. congruence.
Qed.

Lemma label_image_next identify loads i f th font font_size s r s' :
  label_image identify loads i f th font font_size s = (r, s') ->
  (next_id s <= next_id s')%nat /\ warnings s' = warnings s.
Proof.
  unfold label_image, Image_open, resize, text_y_offset, load_default, alloc_font,
    bind, ret, raise, lift.
  destruct (identify f) as [[w h]|]; [|intros [= _ <-]; auto].
  destruct (PIL.bomb w h); [intros [= _ <-]; auto|].
  destruct (loads f); [|intros [= _ <-]; auto].
  simpl. destruct (new_width w h th) as [nw|e1]; [|intros [= _ <-]; auto].
  destruct (negb (PIL.c_int nw && PIL.c_int th)); [intros [= _ <-]; auto|].
  destruct ((nw <? 1) || (th <? 1)); [intros [= _ <-]; auto|].
  simpl. destruct (PIL.font_ne font _).
  - destruct (Py.int_mul_float font_size Py.lit_1_5) as [x|e1];
      [|intros [= _ <-]; simpl; auto].
    simpl. destruct (Py.float_of_int th); intros [= _ <-]; simpl; auto.
  - simpl. intros [= _ <-]; simpl; auto.
Qed.

Lemma label_images_next identify loads th font font_size files :
  forall i acc s r s',
    label_images identify loads i files th font font_size acc s = (r, s') ->
    (next_id s <= next_id s')%nat /\ warnings s' = warnings s.
Proof.
  induction files as [|f files IH]; intros i acc s r s'; simpl.
  - intros [= _ <-]. auto.
  - unfold bind.
    destruct (label_image identify loads i f th font font_size s) as [[img|e1] s1] eqn:H1;
      apply label_image_next in H1 as [Hn Hw].
    + intros H. apply IH in H as [Hn' Hw']. split; [lia|congruence].
    + intros [= _ <-]. auto.
Qed.

Lemma label_images_raises identify loads th font font_size files :
  forall i acc s e s',
    (PIL.font_id font < next_id s)%nat ->
    label_images identify loads i files th font font_size acc s = (Py.Raise e, s') ->
    decoding_error e = true ->
    exists f, In f files /\ file_raises identify loads f e.
Proof.
  induction files as [|f files IH]; intros i acc s e s' Hid; simpl.
  - discriminate.
  - unfold bind.
    destruct (label_image identify loads i f th font font_size s) as [[img|e1] s1] eqn:H1.
    + intros H He. apply label_image_next in H1 as [Hn _].
      apply IH in H as (g & ? & ?); [|lia|exact He]. exists g. auto.
    + intros [= <- _] He. exists f. split; [now left|].
      eapply label_image_raises; eauto.
Qed.

(** X5. An error of decoding that leaves the run comes from one of the
    files: [UnidentifiedImageError] carries a file of the list that is not
    recognised, [DecompressionBombError] means a file of the list is too
    large an image, and [IOError] means the data of a recognised file of the
    list did not load.  The [IOError] of a missing font file never leaves
    the run. *)
Theorem raised_errors (identify : UploadedFile -> option (Z * Z))
    (loads : UploadedFile -> bool) (fonts : gset string)
    (files : list UploadedFile) (th : Z) (s s' : state) (e : Py.exn) :
  process_and_combine_images identify loads fonts files th s = (Py.Raise e, s') ->
  decoding_error e = true ->
  exists f, In f files /\ file_raises identify loads f e.
Proof.
  intros H He.
  destruct (decide (files = [])) as [->|Hne]; [discriminate|].
  rewrite process_eq in H by exact Hne. rewrite font_setup_eq in H.
  destruct (Py.int_mul_float th Py.lit_0_1) as [x|e1] eqn:Hx.
  2:{ injection H as <- _. apply int_mul_float_raises in Hx as ->. discriminate. }
  destruct (Py.int x) as [font_size|e1] eqn:Hi.
  2:{ injection H as <- _. apply int_raises in Hi as [-> | ->]; discriminate. }
  destruct (font_size <=? 0); [injection H as <- _; discriminate|].
  destruct (decide ("arial.ttf" ∈ fonts));
    match type of H with
    | context [label_images ?a ?b ?c ?d ?f ?g ?h ?k ?l] =>
        destruct (label_images a b c d f g h k l) as [[images|e1] s1] eqn:Hl
    end;
    try (injection H as <- _; eapply label_images_raises; [|exact Hl|exact He];
         simpl; lia);
    cbv zeta in H;
    destruct ((sum (map PIL.width images) <? 0) || (th <? 0));
    try (injection H as <- _; discriminate);
    destruct (negb (PIL.c_int (sum (map PIL.width images)) && PIL.c_int th));
    try (injection H as <- _; discriminate); discriminate.
Qed.

Lemma raised_errors_witness :
  (exists f, In f [Sample.image_a; Sample.truncated]
             /\ file_raises Sample.identify Sample.loads f Py.IOError)
  /\ (exists f, In f [Sample.image_a; Sample.corrupt]
                /\ file_raises Sample.identify Sample.loads f
                     (Py.UnidentifiedImageError Sample.corrupt)).
Proof.
  split.
  - apply (raised_errors Sample.identify Sample.loads Sample.without_arial
             [Sample.image_a; Sample.truncated] 400 Sample.start
             {| next_id := 2; warnings := [arial_warning] |} Py.IOError);
      [vm_compute; reflexivity|reflexivity].
  - apply (raised_errors Sample.identify Sample.loads Sample.without_arial
             [Sample.image_a; Sample.corrupt] 400 Sample.start
             {| next_id := 2; warnings := [arial_warning] |}
             (Py.UnidentifiedImageError Sample.corrupt));
      [vm_compute; reflexivity|reflexivity].
Defined.

(** ** The warning *)

(** X6. For a non-empty list and a target height from 10 to 10000 the run
    gives the warning once when the system has no "arial.ttf" and never
    otherwise, whether the run then returns or raises; the warnings given
    before stay.  For a height from 0 to 9 the run raises before any
    warning. *)
Theorem warning_once (identify : UploadedFile -> option (Z * Z))
    (loads : UploadedFile -> bool) (fonts : gset string)
    (files : list UploadedFile) (th : Z) (s : state) :
  files <> [] ->
  (height_ok th = true ->
   warnings (snd (process_and_combine_images identify loads fonts files th s)) =
     if decide ("arial.ttf" ∈ fonts) then warnings s
     else warnings s ++ [arial_warning])
  /\ (0 <= th < 10 ->
      process_and_combine_images identify loads fonts files th s
        = (Py.Raise Py.ValueError, s)).
Proof.
  intros Hne. split.
  - intros Hok. rewrite process_eq by exact Hne.
    rewrite (font_setup_run fonts th s Hok).
    destruct (decide ("arial.ttf" ∈ fonts));
      match goal with
      | |- context [label_images ?a ?b ?c ?d ?f ?g ?h ?k ?l] =>
          destruct (label_images a b c d f g h k l) as [[images|e1] s1] eqn:Hl
      end;
      apply label_images_next in Hl as [_ Hw]; cbv zeta;
      try destruct ((sum (map PIL.width images) <? 0) || (th <? 0));
      try destruct (negb (PIL.c_int (sum (map PIL.width images)) && PIL.c_int th));
      simpl; rewrite Hw; reflexivity.
  - intros Hth. rewrite process_eq by exact Hne.
    now rewrite (font_setup_below_10 fonts th s Hth).
Qed.

Lemma warning_once_witness :
  warnings (snd (process_and_combine_images Sample.identify Sample.loads
                   Sample.without_arial [Sample.corrupt] 400 Sample.start)) =
    (if decide ("arial.ttf" ∈ Sample.without_arial) then warnings Sample.start
     else warnings Sample.start ++ [arial_warning])
  /\ process_and_combine_images Sample.identify Sample.loads Sample.without_arial
       [Sample.image_a] 9 Sample.start
     = (Py.Raise Py.ValueError, Sample.start).
Proof.
  split.
  - apply (warning_once Sample.identify Sample.loads Sample.without_arial
             [Sample.corrupt] 400 Sample.start); [discriminate|reflexivity].
  - apply (warning_once Sample.identify Sample.loads Sample.without_arial
             [Sample.image_a] 9 Sample.start); [discriminate|lia].
Defined.

(** ** Adding files on the right *)

(** X7. Files added at the end of the list leave the images before them
    where they were: when the run on the longer list returns a composite,
    the run on the first files alone returns one too, and the paste calls
    for the first files are the same in both, label, width and offset. *)
Theorem appending_keeps_earlier_slots (identify : UploadedFile -> option (Z * Z))
    (loads : UploadedFile -> bool) (fonts : gset string)
    (files more : list UploadedFile) (th : Z) (s s2 : state) (c2 : PIL.Picture) :
  files <> [] ->
  process_and_combine_images identify loads fonts (files ++ more) th s
    = (Py.Ok (Some (PIL.PNG c2)), s2) ->
  exists c1 s1,
    process_and_combine_images identify loads fonts files th s
      = (Py.Ok (Some (PIL.PNG c1)), s1)
    /\ take (length files) (pastes c2) = pastes c1.
Proof.
  intros Hne Hrun.
  destruct (process_returns _ _ _ _ _ _ _ _ Hrun) as (x & y & images & Hfacts & -> & _).
  destruct Hfacts as (_ & Hx & Hi & Hpos & Hy & Hth & Hlab & Htot).
  destruct (Labelled_split _ _ _ _ _ _ _ _ _ Hlab) as (a & b & -> & Ha).
  assert (run_facts identify loads fonts files th x y a) as Hfacts.
  { repeat (split; [assumption|]).
    rewrite map_app, sum_app in Htot.
    assert (0 <= sum (map PIL.width b)); [|lia].
    apply sum_nonneg, Forall_map.
    assert (Labelled identify loads th (resolved_face fonts (Py.trunc x)) y 0
              (files ++ more) (a ++ b)) as Hall by exact Hlab.
    apply Labelled_positive in Hall. apply Forall_app in Hall as [_ Hb].
    eapply Forall_impl; [exact Hb|]. simpl. intros; lia. }
  eexists. eexists. split; [apply (process_of_facts _ _ _ _ _ x y a); exact Hfacts|].
  rewrite <- (Labelled_length _ _ _ _ _ _ _ _ Ha).
  apply pastes_combine_prefix.
Qed.

Lemma appending_keeps_earlier_slots_witness :
  exists c1 s1,
    process_and_combine_images Sample.identify Sample.loads Sample.with_arial
      [Sample.image_a] 400 Sample.start = (Py.Ok (Some (PIL.PNG c1)), s1)
    /\ take (length [Sample.image_a])
         (pastes (Sample.row Sample.with_arial ([Sample.image_a] ++ [Sample.image_b]) 400))
       = pastes c1.
Proof.
  apply (appending_keeps_earlier_slots Sample.identify Sample.loads Sample.with_arial
           [Sample.image_a] [Sample.image_b] 400 Sample.start
           (Sample.ended Sample.with_arial ([Sample.image_a] ++ [Sample.image_b]) 400)).
  - discriminate.
  - vm_compute. reflexivity.
Defined.

(** ** Where the labels are drawn *)

(** X8. For a target height from 10 to 10000, every label of a composite the
    run returns is drawn at x = 10 and y = target_height - font_size * 1.5,
    with [font_size] a tenth of the height for the system font and 18 for
    the default font, and in that font. *)
Theorem labels_drawn_at (identify : UploadedFile -> option (Z * Z))
    (loads : UploadedFile -> bool) (fonts : gset string)
    (files : list UploadedFile) (th : Z) (s s' : state) (c : PIL.Picture) :
  height_ok th = true ->
  process_and_combine_images identify loads fonts files th s
    = (Py.Ok (Some (PIL.PNG c)), s') ->
  exists y,
    label_position th (resolved_size fonts (th / 10)) = Py.Ok y
    /\ forall (k : nat) p off y',
         pastes c !! k = Some (p, off, y') ->
         label_xy p = Some (Py.Int 10, y)
         /\ label_font p = Some (resolved_face fonts (th / 10)).
Proof.
  intros Hok Hrun.
  destruct (process_returns _ _ _ _ _ _ _ _ Hrun) as (x & y & images & Hfacts & -> & _).
  destruct Hfacts as (_ & Hx & _ & _ & Hy & _ & Hlab & _).
  destruct (tenth_value th Hok) as (x' & Hx' & _ & Htr & _).
  rewrite Hx in Hx'. injection Hx' as <-. rewrite Htr in Hy, Hlab.
  exists y. split; [exact Hy|].
  intros k p off y' Hk.
  assert (k < length images)%nat as Hlt
    by (apply lookup_lt_Some in Hk; now rewrite combine_length in Hk).
  rewrite (Labelled_length _ _ _ _ _ _ _ _ Hlab) in Hlt.
  destruct (lookup_lt_is_Some_2 files k Hlt) as [f Hf].
  destruct (Labelled_lookup _ _ _ _ _ _ _ _ Hlab k f Hf)
    as (w & h & nw & _ & _ & _ & _ & _ & Himg).
  rewrite (combine_lookup _ th _ _ Himg) in Hk. injection Hk as <- _ _.
  split; reflexivity.
Qed.

Lemma labels_drawn_at_witness :
  exists y,
    label_position 400 (resolved_size Sample.without_arial (400 / 10)) = Py.Ok y
    /\ forall (k : nat) p off y',
         pastes (Sample.row Sample.without_arial [Sample.image_a; Sample.image_b] 400) !! k
           = Some (p, off, y') ->
         label_xy p = Some (Py.Int 10, y)
         /\ label_font p = Some (resolved_face Sample.without_arial (400 / 10)).
Proof.
  apply (labels_drawn_at Sample.identify Sample.loads Sample.without_arial
           [Sample.image_a; Sample.image_b] 400 Sample.start
           (Sample.ended Sample.without_arial [Sample.image_a; Sample.image_b] 400)).
  - reflexivity.
  - vm_compute. reflexivity.
Defined.

(** ** The page around the compositor *)

Lemma slider_value_range (v : Z) :
  slider_value_ok v = true -> 200 <= v <= 800 /\ (v - 200) mod 50 = 0.
Proof.
  unfold slider_value_ok. rewrite !andb_true_iff, !Z.leb_le, Z.eqb_eq. tauto.
Qed.

Lemma slider_value_height (v : Z) : slider_value_ok v = true -> height_ok v = true.
Proof.
  intros H. apply slider_value_range in H. unfold height_ok.
  rewrite andb_true_iff, !Z.leb_le. lia.
Qed.

(** X9. At every height the slider can give, the font size the program
    computes by cutting [target_height * 0.1] is a tenth of the height
    exactly, which is also the nearest integer: from 20 to 80. *)
Theorem slider_font_size (fonts : gset string) (th : Z) (s : state) :
  slider_value_ok th = true -> "arial.ttf" ∈ fonts ->
  font_setup fonts th s =
    (Py.Ok ({| PIL.font_id := next_id s;
               PIL.face := PIL.FreeTypeFont "arial.ttf" (nearest_int th 10) |},
            nearest_int th 10),
     {| next_id := S (next_id s); warnings := warnings s |})
  /\ th = 10 * nearest_int th 10
  /\ 20 <= nearest_int th 10 <= 80.
Proof.
  intros Hok Harial.
  pose proof (slider_value_range th Hok) as [Hrange Hstep].
  pose proof (font_setup_run fonts th s (slider_value_height th Hok)) as Hrun.
  assert (nearest_int th 10 = th / 10 /\ th = 10 * (th / 10)) as [Hn Hd].
  { assert (th = 10 * (20 + 5 * ((th - 200) / 50))) as E
      by (pose proof (Z.div_mod (th - 200) 50 ltac:(lia)); lia).
    set (j := 20 + 5 * ((th - 200) / 50)) in E.
    assert (th / 10 = j) as Hq by (symmetry; apply (Z.div_unique th 10 j 0); lia).
    split; [|lia]. rewrite Hq. unfold nearest_int.
    symmetry. apply (Z.div_unique _ _ j 10); lia. }
  rewrite Hn. split; [|lia].
  rewrite Hrun. destruct (decide ("arial.ttf" ∈ fonts)); [|contradiction].
  reflexivity.
Qed.

Lemma slider_font_size_witness :
  slider_value_ok 650 = true /\ "arial.ttf" ∈ Sample.with_arial /\
  font_setup Sample.with_arial 650 Sample.start =
    (Py.Ok ({| PIL.font_id := next_id Sample.start;
               PIL.face := PIL.FreeTypeFont "arial.ttf" (nearest_int 650 10) |},
            nearest_int 650 10),
     {| next_id := S (next_id Sample.start); warnings := warnings Sample.start |})
  /\ 650 = 10 * nearest_int 650 10
  /\ 20 <= nearest_int 650 10 <= 80.
Proof.
  assert (slider_value_ok 650 = true) as H1 by reflexivity.
  assert ("arial.ttf" ∈ Sample.with_arial) as H2 by (apply elem_of_singleton; reflexivity).
  exact (conj H1 (conj H2 (slider_font_size Sample.with_arial 650 Sample.start H1 H2))).
Defined.

Lemma first_five (A : Type) (l : list A) :
  (if 5 <? Z.of_nat (length l) then take 5 l else l) = take 5 l.
Proof.
  destruct (5 <? Z.of_nat (length l)) eqn:H; [reflexivity|].
  symmetry. apply take_ge. lia.
Qed.

(** The calls of a run of the page that gets to the compositor. *)
Lemma page_calls (identify : UploadedFile -> option (Z * Z))
    (loads : UploadedFile -> bool) (fonts : gset string)
    (uploaded_files : list UploadedFile) (th : Z) (s : state) :
  uploaded_files <> [] ->
  exists calls,
    filter shows_bytes calls = []
    /\ (In (st.error "⚠️ Maximum of 5 images allowed. Please remove some files.") calls
        <-> (5 < length uploaded_files)%nat)
    /\ page identify loads fonts uploaded_files th s =
         match process_and_combine_images identify loads fonts
                 (take 5 uploaded_files) th s with
         | (Py.Raise e, s') => (calls, Py.Raise e, s')
         | (Py.Ok (Some b), s') =>
             (calls ++ [st.markdown "---"] ++ page_result b, Py.Ok tt, s')
         | (Py.Ok None, s') => (calls ++ [st.markdown "---"], Py.Ok tt, s')
         end.
Proof.
  intros Hne. unfold page.
  destruct uploaded_files as [|f0 files0] eqn:Hfiles; [congruence|]. rewrite <- Hfiles.
  rewrite first_five.
  destruct (5 <? Z.of_nat (length uploaded_files)) eqn:Hmany.
  - eexists. split; [|split]; cycle 2.
    + destruct (process_and_combine_images identify loads fonts
                  (take 5 uploaded_files) th s)
        as [[[b|]|e] s']; cycle 2;
        [reflexivity | rewrite <- app_assoc; reflexivity | reflexivity].
    + reflexivity.
    + split; [intros _; lia|intros _].
      apply in_or_app. left. apply in_or_app. left. apply in_or_app. right. left.
      reflexivity.
  - eexists. split; [|split]; cycle 2.
    + destruct (process_and_combine_images identify loads fonts
                  (take 5 uploaded_files) th s)
        as [[[b|]|e] s']; cycle 2;
        [reflexivity | rewrite <- app_assoc; reflexivity | reflexivity].
    + reflexivity.
    + split; [|intros; lia].
      intros Hin. exfalso. simpl in Hin.
      repeat (destruct Hin as [Hin|Hin]; [discriminate|]). exact Hin.
Qed.

Lemma shown_bytes_in (calls : list st.call) (b : PIL.bytes) (caption : string) :
  filter shows_bytes calls = [] -> ~ In (st.image b caption) calls.
Proof.
  intros Hf Hin. apply list_elem_of_In in Hin.
  assert (st.image b caption ∈ filter shows_bytes calls) as H
    by (apply list_elem_of_filter; split; [exact I|exact Hin]).
  rewrite Hf in H. inversion H.
Qed.

(** X10. With files uploaded, a height from the slider and the first five
    files inside the domain, the page ends with the preview and the download
    button, both on the same bytes: what the compositor returns for the
    first five files at that height.  No other call shows bytes.  Files
    after the fifth are never opened, and the error message about them is
    shown exactly when there are more than five. *)
Theorem page_offers_composite (identify : UploadedFile -> option (Z * Z))
    (loads : UploadedFile -> bool) (fonts : gset string)
    (uploaded_files : list UploadedFile) (th : Z) (s : state) :
  uploaded_files <> [] -> slider_value_ok th = true ->
  row_ok identify loads th (take 5 uploaded_files) = true ->
  exists c s' calls,
    process_and_combine_images identify loads fonts (take 5 uploaded_files) th s
      = (Py.Ok (Some (PIL.PNG c)), s')
    /\ page identify loads fonts uploaded_files th s
       = (calls ++ page_result (PIL.PNG c), Py.Ok tt, s')
    /\ filter shows_bytes calls = []
    /\ (In (st.error "⚠️ Maximum of 5 images allowed. Please remove some files.") calls
        <-> (5 < length uploaded_files)%nat)
    /\ PIL.size c = (sum (map (rescaled_width identify th) (take 5 uploaded_files)), th)
    /\ length (pastes c) = Nat.min 5 (length uploaded_files).
Proof.
  intros Hne Hok Hrow.
  assert (take 5 uploaded_files <> []) as Hne5
    by (destruct uploaded_files; [congruence|discriminate]).
  destruct (process_run identify loads fonts _ th s Hne5 (slider_value_height th Hok) Hrow)
    as (y & images & _ & Hlab & Hrun).
  destruct (page_calls identify loads fonts uploaded_files th s Hne)
    as (calls & Hshow & Herr & Hpage).
  rewrite Hrun in Hpage.
  exists (combine images th), (final_state fonts (length (take 5 uploaded_files)) s),
         (calls ++ [st.markdown "---"]).
  split; [exact Hrun|].
  split; [rewrite Hpage, <- app_assoc; reflexivity|].
  split; [rewrite filter_app, Hshow; reflexivity|].
  split.
  { rewrite <- Herr. split; intros Hin.
    - apply in_app_or in Hin as [Hin|[Hin|[]]]; [exact Hin|discriminate].
    - apply in_or_app. now left. }
  split.
  - rewrite combine_size. now rewrite (Labelled_widths _ _ _ _ _ _ _ _ Hlab).
  - rewrite combine_length, (Labelled_length _ _ _ _ _ _ _ _ Hlab). apply length_take.
Qed.

Lemma page_offers_composite_witness :
  exists c s' calls,
    process_and_combine_images Sample.identify Sample.loads Sample.with_arial
      (take 5 [Sample.image_a; Sample.image_b]) 400 Sample.start
      = (Py.Ok (Some (PIL.PNG c)), s')
    /\ page Sample.identify Sample.loads Sample.with_arial
         [Sample.image_a; Sample.image_b] 400 Sample.start
       = (calls ++ page_result (PIL.PNG c), Py.Ok tt, s')
    /\ filter shows_bytes calls = []
    /\ (In (st.error "⚠️ Maximum of 5 images allowed. Please remove some files.") calls
        <-> (5 < length [Sample.image_a; Sample.image_b])%nat)
    /\ PIL.size c =
         (sum (map (rescaled_width Sample.identify 400)
                 (take 5 [Sample.image_a; Sample.image_b])), 400)
    /\ length (pastes c) = Nat.min 5 (length [Sample.image_a; Sample.image_b]).
Proof.
  apply (page_offers_composite Sample.identify Sample.loads Sample.with_arial
           [Sample.image_a; Sample.image_b] 400 Sample.start);
    [discriminate|reflexivity|reflexivity].
Defined.

(** X11. On a composite the page shows, every label is one of the letters
    "a" to "e": the numerals [to_letter] falls back on are never drawn. *)
Theorem page_labels_are_letters (identify : UploadedFile -> option (Z * Z))
    (loads : UploadedFile -> bool) (fonts : gset string)
    (uploaded_files : list UploadedFile) (th : Z) (s : state)
    (c : PIL.Picture) (caption : string) :
  In (st.image (PIL.PNG c) caption)
     (fst (fst (page identify loads fonts uploaded_files th s))) ->
  forall (k : nat) p off y,
    pastes c !! k = Some (p, off, y) ->
    exists l, label_of p = Some l /\ In l ["a"; "b"; "c"; "d"; "e"]%string.
Proof.
  intros Hin k p off y Hk.
  destruct (decide (uploaded_files = [])) as [->|Hne].
  { exfalso. simpl in Hin.
    repeat (destruct Hin as [Hin|Hin]; [discriminate|]). exact Hin. }
  destruct (page_calls identify loads fonts uploaded_files th s Hne)
    as (calls & Hshow & _ & Hpage).
  rewrite Hpage in Hin.
  destruct (process_and_combine_images identify loads fonts (take 5 uploaded_files) th s)
    as [[[b|]|e] s'] eqn:Hrun; simpl in Hin.
  - apply in_app_or in Hin as [Hin|Hin];
      [exfalso; eapply shown_bytes_in; eauto|].
    simpl in Hin.
    destruct Hin as [Hin|[Hin|[Hin|[Hin|[Hin|[]]]]]]; try discriminate.
    injection Hin as -> _.
    destruct (process_returns _ _ _ _ _ _ _ _ Hrun) as (x0 & y0 & images & Hfacts & -> & _).
    destruct Hfacts as (_ & _ & _ & _ & _ & _ & Hlab & _).
    destruct (pasted_label _ _ _ _ _ _ _ _ _ _ _ Hlab Hk) as [Hl Hlt].
    rewrite length_take in Hlt.
    eexists. split; [exact Hl|].
    destruct k as [|[|[|[|[|k]]]]]; try lia; simpl; auto 10.
  - exfalso. apply in_app_or in Hin as [Hin|[Hin|[]]];
      [eapply shown_bytes_in; eauto|discriminate].
  - exfalso. eapply shown_bytes_in; eauto.
Qed.

Lemma page_labels_are_letters_witness :
  exists p off,
    pastes (Sample.row Sample.with_arial
              (take 5 [Sample.image_a; Sample.image_b; Sample.small; Sample.image_a;
                       Sample.image_b; Sample.small; Sample.image_a]) 400) !! 4%nat
      = Some (p, off, 0)
    /\ exists l, label_of p = Some l /\ In l ["a"; "b"; "c"; "d"; "e"]%string.
Proof.
  eexists. eexists. split; [vm_compute; reflexivity|].
  eapply (page_labels_are_letters Sample.identify Sample.loads Sample.with_arial
           [Sample.image_a; Sample.image_b; Sample.small; Sample.image_a;
            Sample.image_b; Sample.small; Sample.image_a] 400 Sample.start
           (Sample.row Sample.with_arial
              (take 5 [Sample.image_a; Sample.image_b; Sample.small; Sample.image_a;
                       Sample.image_b; Sample.small; Sample.image_a]) 400)
           "Final Combined Image (a, b, c, ...)"
           ltac:(vm_compute; auto 20) 4%nat).
  vm_compute. reflexivity.
Defined.

(** X12. When one of the first five files does not decode, the files
    before it being inside the domain, the page stops with Pillow's error
    for that file: neither the preview nor the download button is shown. *)
Theorem page_aborts_on_corrupt_file (identify : UploadedFile -> option (Z * Z))
    (loads : UploadedFile -> bool) (fonts : gset string)
    (before : list UploadedFile) (f : UploadedFile)
    (rest : list UploadedFile) (th : Z) (s : state) :
  (length before < 5)%nat -> slider_value_ok th = true ->
  row_ok identify loads th before = true ->
  undecodable identify loads f = true ->
  exists calls,
    page identify loads fonts (before ++ f :: rest) th s
      = (calls, Py.Raise (decode_error identify f),
         final_state fonts (length before) s)
    /\ filter shows_bytes calls = [].
Proof.
  intros Hlen Hok Hrow Hf.
  assert (before ++ f :: rest <> []) as Hne by (destruct before; discriminate).
  destruct (page_calls identify loads fonts _ th s Hne) as (calls & Hshow & _ & Hpage).
  assert (take 5 (before ++ f :: rest)
          = before ++ f :: take (4 - length before) rest) as Htake.
  { rewrite take_app, take_ge by lia.
    replace (5 - length before)%nat with (S (4 - length before)) by lia. reflexivity. }
  rewrite Htake in Hpage.
  unfold row_ok in Hrow. apply andb_true_iff in Hrow as [Hall _].
  rewrite (process_stops identify loads fonts before f _ th (decode_error identify f) s
             (slider_value_height th Hok) Hall) in Hpage
    by (intros; now apply label_image_undecodable).
  exists calls. split; [exact Hpage|exact Hshow].
Qed.

Lemma page_aborts_on_corrupt_file_witness :
  exists calls,
    page Sample.identify Sample.loads Sample.with_arial
      ([Sample.image_a] ++ Sample.truncated :: [Sample.image_b]) 400 Sample.start
      = (calls, Py.Raise (decode_error Sample.identify Sample.truncated),
         final_state Sample.with_arial (length [Sample.image_a]) Sample.start)
    /\ filter shows_bytes calls = [].
Proof.
  apply (page_aborts_on_corrupt_file Sample.identify Sample.loads Sample.with_arial
           [Sample.image_a] Sample.truncated [Sample.image_b] 400 Sample.start);
    [simpl; lia|reflexivity|reflexivity|reflexivity].
Defined.
